(** * The accounting store: in-memory path of [server/store/accounting.ts]

    A shallow embedding of the accounting store of the application and the
    proofs of its specification.

    Modelling conventions.

    - A JavaScript [number] is an exact integer ([Z]): amounts, quantities and
      prices are added, subtracted, multiplied and compared. [Z] agrees with
      the IEEE doubles of the code on whole numbers of magnitude below 2^53;
      rounding, [NaN] and the infinities are outside the model. A statement
      that equates a stored number with the code's own sum, product or
      maximum does not depend on this; a statement that uses a law of
      arithmetic bounds its numbers by 2^53.
    - A JavaScript [string] is a [string]; [===] is [String.eqb] and [>] is
      the lexicographic order [String.ltb] with its arguments swapped (the
      dates and timestamps compared by the store are ASCII).
    - A JavaScript [Map] is an association list in insertion order: [set] on
      a present key replaces the value in place, on an absent key appends;
      [delete] drops the entry of the key. The keys of a [Map] are distinct,
      which [store_wf] states and every call preserves.
    - [crypto.randomUUID()] and [new Date().toISOString()] read the
      environment; the n-th reading is [uuid_source n], resp. [clock_source n],
      and the world counts the readings.
    - [throw new Error(msg)] is the outcome [Thrown], returned together with
      the store as the statements executed before it left it.
    - Every exported function starts with [await getInitializedMysqlPool()]
      and branches on [!pool]. The definitions below are the [!pool]
      branches: the store of a process without a configured database. These
      branches contain no [await], so a call runs without interleaving. *)

From Stdlib Require Import ZArith String List Permutation Sorted Lia.
From stdpp Require Import base list strings pretty sorting.

Open Scope string_scope.
Open Scope Z_scope.

(** ** JavaScript [Map<string, V>] *)

Module JsMap.

Abbreviation t V := (list (string * V)).

Section Ops.
Context {V : Type}.

Fixpoint get (k : string) (m : t V) : option V :=
  match m with
  | [] => None
  | (k', v) :: m' => if String.eqb k' k then Some v else get k m'
  end.

Definition has (k : string) (m : t V) : bool :=
  match get k m with Some _ => true | None => false end.

Fixpoint set (k : string) (v : V) (m : t V) : t V :=
  match m with
  | [] => [(k, v)]
  | (k', v') :: m' =>
      if String.eqb k' k then (k', v) :: m' else (k', v') :: set k v m'
  end.

Fixpoint remove (k : string) (m : t V) : t V :=
  match m with
  | [] => []
  | (k', v') :: m' =>
      if String.eqb k' k then remove k m' else (k', v') :: remove k m'
  end.

(** [m.delete(k)]: the boolean result and the map afterwards. *)
Definition delete (k : string) (m : t V) : bool * t V :=
  (has k m, remove k m).

Definition keys (m : t V) : list string := map fst m.
Definition values (m : t V) : list V := map snd m.
Definition size (m : t V) : nat := length m.

End Ops.

End JsMap.

(** ** [shared/accounting.ts]: the records *)

Module TransType.
Inductive t := revenue | expense.
End TransType.

Module Transaction.
Record t := {
  id : string;
  date : string;
  type : TransType.t;
  description : string;
  amount : Z;
  approved : bool;
  createdBy : option string;
  createdAt : option string
}.
End Transaction.

Module InventoryItem.
Record t := {
  id : string;
  name : string;
  updatedAt : string;
  quantity : Z;
  unit : string;
  min : Z
}.
End InventoryItem.

Module MovementKind.
Inductive t := kind_in | kind_out.
End MovementKind.

Module Movement.
Record t := {
  id : string;
  itemId : string;
  kind : MovementKind.t;
  qty : Z;
  unitPrice : Z;
  total : Z;
  party : string;
  date : string
}.
End Movement.

Module Project.
Record t := {
  id : string;
  name : string;
  location : string;
  floors : Z;
  units : Z;
  createdAt : string
}.
End Project.

Module CostType.
Inductive t := construction | operation | expense.
End CostType.

Module ProjectCost.
Record t := {
  id : string;
  projectId : string;
  type : CostType.t;
  amount : Z;
  date : string;
  note : string
}.
End ProjectCost.

Module ProjectSale.
Record t := {
  id : string;
  projectId : string;
  unitNo : string;
  buyer : string;
  price : Z;
  date : string;
  terms : option string;
  area : option string;
  paymentMethod : option string
}.
End ProjectSale.

Module ProjectSnapshot.
Record t := {
  project : Project.t;
  costs : list ProjectCost.t;
  sales : list ProjectSale.t
}.
End ProjectSnapshot.

Module AccountingSnapshot.
Record t := {
  transactions : list Transaction.t;
  items : list InventoryItem.t;
  movements : list Movement.t;
  projects : list Project.t;
  costs : list ProjectCost.t;
  sales : list ProjectSale.t
}.
End AccountingSnapshot.

Module TransactionCreateInput.
Record t := {
  date : string;
  type : TransType.t;
  description : string;
  amount : Z;
  approved : bool;
  createdBy : option string
}.
End TransactionCreateInput.

Module InventoryItemCreateInput.
Record t := {
  name : string;
  quantity : Z;
  unit : string;
  min : Z;
  updatedAt : string
}.
End InventoryItemCreateInput.

Module InventoryReceiptInput.
Record t := {
  itemId : string;
  qty : Z;
  unitPrice : Z;
  supplier : string;
  date : string;
  approved : bool;
  createdBy : option string
}.
End InventoryReceiptInput.

Module InventoryIssueInput.
Record t := {
  itemId : string;
  qty : Z;
  unitPrice : Z;
  project : string;
  date : string;
  approved : bool;
  createdBy : option string
}.
End InventoryIssueInput.

Module InventoryMovementResult.
Record t := {
  item : InventoryItem.t;
  movement : Movement.t;
  transaction : Transaction.t
}.
End InventoryMovementResult.

Module ProjectCreateInput.
Record t := {
  name : string;
  location : string;
  floors : Z;
  units : Z;
  createdAt : string
}.
End ProjectCreateInput.

Module ProjectCostCreateInput.
Record t := {
  projectId : string;
  projectName : string;
  type : CostType.t;
  amount : Z;
  date : string;
  note : string;
  approved : bool;
  createdBy : option string
}.
End ProjectCostCreateInput.

Module ProjectCostCreateResult.
Record t := {
  cost : ProjectCost.t;
  transaction : Transaction.t
}.
End ProjectCostCreateResult.

Module ProjectSaleCreateInput.
Record t := {
  projectId : string;
  projectName : string;
  unitNo : string;
  buyer : string;
  price : Z;
  date : string;
  terms : option string;
  area : option string;
  paymentMethod : option string;
  approved : bool;
  createdBy : option string
}.
End ProjectSaleCreateInput.

Module ProjectSaleCreateResult.
Record t := {
  sale : ProjectSale.t;
  transaction : Transaction.t
}.
End ProjectSaleCreateResult.

(** ** The store and the world around it *)

(** [const fallbackStore = { transactions: new Map(), ... }] *)
Module FallbackStore.
Record t := {
  transactions : JsMap.t Transaction.t;
  items : JsMap.t InventoryItem.t;
  movements : JsMap.t Movement.t;
  projects : JsMap.t Project.t;
  costs : JsMap.t ProjectCost.t;
  sales : JsMap.t ProjectSale.t
}.

Definition empty : t :=
  {| transactions := []; items := []; movements := [];
     projects := []; costs := []; sales := [] |}.

Definition on_transactions (f : JsMap.t Transaction.t -> JsMap.t Transaction.t) (s : t) : t :=
  {| transactions := f (transactions s); items := items s;
     movements := movements s; projects := projects s;
     costs := costs s; sales := sales s |}.

Definition on_items (f : JsMap.t InventoryItem.t -> JsMap.t InventoryItem.t) (s : t) : t :=
  {| transactions := transactions s; items := f (items s);
     movements := movements s; projects := projects s;
     costs := costs s; sales := sales s |}.

Definition on_movements (f : JsMap.t Movement.t -> JsMap.t Movement.t) (s : t) : t :=
  {| transactions := transactions s; items := items s;
     movements := f (movements s); projects := projects s;
     costs := costs s; sales := sales s |}.

Definition on_projects (f : JsMap.t Project.t -> JsMap.t Project.t) (s : t) : t :=
  {| transactions := transactions s; items := items s;
     movements := movements s; projects := f (projects s);
     costs := costs s; sales := sales s |}.

Definition on_costs (f : JsMap.t ProjectCost.t -> JsMap.t ProjectCost.t) (s : t) : t :=
  {| transactions := transactions s; items := items s;
     movements := movements s; projects := projects s;
     costs := f (costs s); sales := sales s |}.

Definition on_sales (f : JsMap.t ProjectSale.t -> JsMap.t ProjectSale.t) (s : t) : t :=
  {| transactions := transactions s; items := items s;
     movements := movements s; projects := projects s;
     costs := costs s; sales := f (sales s) |}.
End FallbackStore.

Record World := {
  fallbackStore : FallbackStore.t;
  uuid_source : nat -> string;
  uuid_count : nat;
  clock_source : nat -> string;
  clock_count : nat
}.

Definition initial_world (uuids clock : nat -> string) : World :=
  {| fallbackStore := FallbackStore.empty;
     uuid_source := uuids; uuid_count := 0%nat;
     clock_source := clock; clock_count := 0%nat |}.

Definition with_store (s : FallbackStore.t) (w : World) : World :=
  {| fallbackStore := s;
     uuid_source := uuid_source w; uuid_count := uuid_count w;
     clock_source := clock_source w; clock_count := clock_count w |}.

(** ** Exceptions and the store monad *)

(** [new Error(message)] *)
Record Error := { message : string }.

Inductive outcome (A : Type) :=
| Returned (a : A)
| Thrown (e : Error).
Arguments Returned {A} a.
Arguments Thrown {A} e.

Definition M (A : Type) : Type := World -> outcome A * World.

Definition ret {A} (a : A) : M A := fun w => (Returned a, w).

Definition bind {A B} (c : M A) (k : A -> M B) : M B :=
  fun w =>
    match c w with
    | (Returned a, w') => k a w'
    | (Thrown e, w') => (Thrown e, w')
    end.

Declare Scope store_scope.
Delimit Scope store_scope with store.
Notation "x <- c ;; k" := (bind c (fun x => k))
  (at level 100, c at next level, right associativity) : store_scope.
Notation "c ;;; k" := (bind c (fun _ => k))
  (at level 100, right associativity) : store_scope.
Open Scope store_scope.

Definition throw {A} (e : Error) : M A := fun w => (Thrown e, w).

Definition read_store : M FallbackStore.t :=
  fun w => (Returned (fallbackStore w), w).

Definition update_store (f : FallbackStore.t -> FallbackStore.t) : M unit :=
  fun w => (Returned tt, with_store (f (fallbackStore w)) w).

(** [crypto.randomUUID()] *)
Definition randomUUID : M string :=
  fun w =>
    (Returned (uuid_source w (uuid_count w)),
     {| fallbackStore := fallbackStore w;
        uuid_source := uuid_source w; uuid_count := S (uuid_count w);
        clock_source := clock_source w; clock_count := clock_count w |}).

(** [new Date().toISOString()] *)
Definition nowISOString : M string :=
  fun w =>
    (Returned (clock_source w (clock_count w)),
     {| fallbackStore := fallbackStore w;
        uuid_source := uuid_source w; uuid_count := uuid_count w;
        clock_source := clock_source w; clock_count := S (clock_count w) |}).

(** [input.createdBy ?? null]: [undefined] and [null] are both [None]. *)
Definition orNull (x : option string) : option string := x.

(** [`${n}`] for a number [n]: the decimal digits, as JavaScript prints
    whole numbers of magnitude below 10^21. *)
Definition numberToString (n : Z) : string := pretty n.

(** ** Sorting

    [Array.prototype.sort(cmp)] is stable, and for a consistent comparator
    its result is the one stable arrangement in comparator order. It is
    modelled by the stable insertion sort: an element is placed in front of
    the first later element it does not compare greater than. *)

Fixpoint sort_insert {A} (cmp : A -> A -> Z) (x : A) (l : list A) : list A :=
  match l with
  | [] => [x]
  | y :: l' => if cmp x y <=? 0 then x :: y :: l' else y :: sort_insert cmp x l'
  end.

Definition Array_sort {A} (cmp : A -> A -> Z) (l : list A) : list A :=
  fold_right (sort_insert cmp) [] l.

(** [a > b] on strings *)
Definition string_gt (a b : string) : bool := String.ltb b a.

(** [(a, b) => a.date === b.date ? 0 : a.date > b.date ? -1 : 1], also used
    with [updatedAt] and [createdAt] as the key. *)
Definition compareDesc {A} (key : A -> string) (a b : A) : Z :=
  if String.eqb (key a) (key b) then 0
  else if string_gt (key a) (key b) then -1 else 1.

Definition sortByDateDesc {A} (date : A -> string) (items : list A) : list A :=
  Array_sort (compareDesc date) items.

Definition compareTransactions (a b : Transaction.t) : Z :=
  if String.eqb (Transaction.date a) (Transaction.date b) then
    let ca := default "" (Transaction.createdAt a) in
    let cb := default "" (Transaction.createdAt b) in
    if String.eqb ca cb then 0 else if string_gt ca cb then -1 else 1
  else if string_gt (Transaction.date a) (Transaction.date b) then -1 else 1.

Definition sortTransactions (items : list Transaction.t) : list Transaction.t :=
  Array_sort compareTransactions items.

Definition sortTransactionsFallback {A} (date : A -> string) (items : list A) : list A :=
  sortByDateDesc date items.

Definition sortTransactionsFallbackMovements (items : list Movement.t) : list Movement.t :=
  Array_sort (compareDesc Movement.date) items.

Definition getFallbackSnapshot : M AccountingSnapshot.t :=
  s <- read_store ;;
  ret {| AccountingSnapshot.transactions :=
           sortTransactions (JsMap.values (FallbackStore.transactions s));
         AccountingSnapshot.items :=
           Array_sort (compareDesc InventoryItem.updatedAt)
             (JsMap.values (FallbackStore.items s));
         AccountingSnapshot.movements :=
           sortTransactionsFallbackMovements
             (JsMap.values (FallbackStore.movements s));
         AccountingSnapshot.projects :=
           Array_sort (compareDesc Project.createdAt)
             (JsMap.values (FallbackStore.projects s));
         AccountingSnapshot.costs :=
           sortTransactionsFallback ProjectCost.date
             (JsMap.values (FallbackStore.costs s));
         AccountingSnapshot.sales :=
           sortTransactionsFallback ProjectSale.date
             (JsMap.values (FallbackStore.sales s)) |}.

Definition getAccountingSnapshot : M AccountingSnapshot.t := getFallbackSnapshot.

(** ** Transactions *)

Definition createTransactionFallback (input : TransactionCreateInput.t)
  : M Transaction.t :=
  id <- randomUUID ;;
  now <- nowISOString ;;
  let transaction :=
    {| Transaction.id := id;
       Transaction.date := TransactionCreateInput.date input;
       Transaction.type := TransactionCreateInput.type input;
       Transaction.description := TransactionCreateInput.description input;
       Transaction.amount := TransactionCreateInput.amount input;
       Transaction.approved := TransactionCreateInput.approved input;
       Transaction.createdBy := orNull (TransactionCreateInput.createdBy input);
       Transaction.createdAt := Some now |} in
  update_store (FallbackStore.on_transactions
                  (JsMap.set (Transaction.id transaction) transaction)) ;;;
  ret transaction.

Definition createTransaction (input : TransactionCreateInput.t) : M Transaction.t :=
  createTransactionFallback input.

Definition approveTransaction (id : string) : M Transaction.t :=
  s <- read_store ;;
  match JsMap.get id (FallbackStore.transactions s) with
  | None => throw {| message := "Transaction not found" |}
  | Some existing =>
      let updated :=
        {| Transaction.id := Transaction.id existing;
           Transaction.date := Transaction.date existing;
           Transaction.type := Transaction.type existing;
           Transaction.description := Transaction.description existing;
           Transaction.amount := Transaction.amount existing;
           Transaction.approved := true;
           Transaction.createdBy := Transaction.createdBy existing;
           Transaction.createdAt := Transaction.createdAt existing |} in
      update_store (FallbackStore.on_transactions (JsMap.set id updated)) ;;;
      ret updated
  end.

Definition deleteTransaction (id : string) : M unit :=
  s <- read_store ;;
  let (deleted, rest) := JsMap.delete id (FallbackStore.transactions s) in
  update_store (FallbackStore.on_transactions (fun _ => rest)) ;;;
  if negb deleted then throw {| message := "Transaction not found" |}
  else ret tt.

(** ** Inventory *)

Definition createInventoryItem (input : InventoryItemCreateInput.t)
  : M InventoryItem.t :=
  id <- randomUUID ;;
  let item :=
    {| InventoryItem.id := id;
       InventoryItem.name := InventoryItemCreateInput.name input;
       InventoryItem.quantity := InventoryItemCreateInput.quantity input;
       InventoryItem.unit := InventoryItemCreateInput.unit input;
       InventoryItem.min := InventoryItemCreateInput.min input;
       InventoryItem.updatedAt := InventoryItemCreateInput.updatedAt input |} in
  update_store (FallbackStore.on_items
                  (JsMap.set (InventoryItem.id item) item)) ;;;
  ret item.

(** [for (const movement of fallbackStore.movements.values())
       if (movement.itemId === id) fallbackStore.movements.delete(movement.id)]

    The iterator is live: [pending] are the entries it has not reached yet,
    and an entry deleted in the meantime is skipped when it is reached. *)
Fixpoint deleteMovementsOf (id : string) (pending : JsMap.t Movement.t)
    (movements : JsMap.t Movement.t) : JsMap.t Movement.t :=
  match pending with
  | [] => movements
  | (k, movement) :: pending' =>
      if JsMap.has k movements then
        if String.eqb (Movement.itemId movement) id
        then deleteMovementsOf id pending'
               (JsMap.remove (Movement.id movement) movements)
        else deleteMovementsOf id pending' movements
      else deleteMovementsOf id pending' movements
  end.

Definition deleteInventoryItem (id : string) : M unit :=
  update_store (FallbackStore.on_items (JsMap.remove id)) ;;;
  update_store (FallbackStore.on_movements
                  (fun movements => deleteMovementsOf id movements movements)) ;;;
  ret tt.

Definition recordInventoryReceipt (input : InventoryReceiptInput.t)
  : M InventoryMovementResult.t :=
  s <- read_store ;;
  match JsMap.get (InventoryReceiptInput.itemId input) (FallbackStore.items s) with
  | None => throw {| message := "Inventory item not found" |}
  | Some item =>
      let updated :=
        {| InventoryItem.id := InventoryItem.id item;
           InventoryItem.name := InventoryItem.name item;
           InventoryItem.updatedAt := InventoryReceiptInput.date input;
           InventoryItem.quantity :=
             InventoryItem.quantity item + InventoryReceiptInput.qty input;
           InventoryItem.unit := InventoryItem.unit item;
           InventoryItem.min := InventoryItem.min item |} in
      update_store (FallbackStore.on_items
                      (JsMap.set (InventoryItem.id updated) updated)) ;;;
      movementId <- randomUUID ;;
      let movement :=
        {| Movement.id := movementId;
           Movement.itemId := InventoryReceiptInput.itemId input;
           Movement.kind := MovementKind.kind_in;
           Movement.qty := InventoryReceiptInput.qty input;
           Movement.unitPrice := InventoryReceiptInput.unitPrice input;
           Movement.total :=
             InventoryReceiptInput.qty input * InventoryReceiptInput.unitPrice input;
           Movement.party := InventoryReceiptInput.supplier input;
           Movement.date := InventoryReceiptInput.date input |} in
      update_store (FallbackStore.on_movements
                      (JsMap.set (Movement.id movement) movement)) ;;;
      transaction <- createTransactionFallback
        {| TransactionCreateInput.date := InventoryReceiptInput.date input;
           TransactionCreateInput.type := TransType.expense;
           TransactionCreateInput.description :=
             "شراء " ++ InventoryItem.name item ++ " من "
               ++ InventoryReceiptInput.supplier input ++ " ("
               ++ numberToString (InventoryReceiptInput.qty input) ++ " "
               ++ InventoryItem.unit item ++ " × "
               ++ numberToString (InventoryReceiptInput.unitPrice input) ++ ")";
           TransactionCreateInput.amount := Movement.total movement;
           TransactionCreateInput.approved := InventoryReceiptInput.approved input;
           TransactionCreateInput.createdBy :=
             orNull (InventoryReceiptInput.createdBy input) |} ;;
      ret {| InventoryMovementResult.item := updated;
             InventoryMovementResult.movement := movement;
             InventoryMovementResult.transaction := transaction |}
  end.

Definition recordInventoryIssue (input : InventoryIssueInput.t)
  : M InventoryMovementResult.t :=
  s <- read_store ;;
  match JsMap.get (InventoryIssueInput.itemId input) (FallbackStore.items s) with
  | None => throw {| message := "Inventory item not found" |}
  | Some item =>
      let nextQuantity :=
        Z.max 0 (InventoryItem.quantity item - InventoryIssueInput.qty input) in
      let updated :=
        {| InventoryItem.id := InventoryItem.id item;
           InventoryItem.name := InventoryItem.name item;
           InventoryItem.updatedAt := InventoryIssueInput.date input;
           InventoryItem.quantity := nextQuantity;
           InventoryItem.unit := InventoryItem.unit item;
           InventoryItem.min := InventoryItem.min item |} in
      update_store (FallbackStore.on_items
                      (JsMap.set (InventoryItem.id updated) updated)) ;;;
      movementId <- randomUUID ;;
      let movement :=
        {| Movement.id := movementId;
           Movement.itemId := InventoryIssueInput.itemId input;
           Movement.kind := MovementKind.kind_out;
           Movement.qty := InventoryIssueInput.qty input;
           Movement.unitPrice := InventoryIssueInput.unitPrice input;
           Movement.total :=
             InventoryIssueInput.qty input * InventoryIssueInput.unitPrice input;
           Movement.party := InventoryIssueInput.project input;
           Movement.date := InventoryIssueInput.date input |} in
      update_store (FallbackStore.on_movements
                      (JsMap.set (Movement.id movement) movement)) ;;;
      transaction <- createTransactionFallback
        {| TransactionCreateInput.date := InventoryIssueInput.date input;
           TransactionCreateInput.type := TransType.expense;
           TransactionCreateInput.description :=
             "صرف " ++ InventoryItem.name item ++ " لمشروع "
               ++ InventoryIssueInput.project input ++ " ("
               ++ numberToString (InventoryIssueInput.qty input) ++ " "
               ++ InventoryItem.unit item ++ " × "
               ++ numberToString (InventoryIssueInput.unitPrice input) ++ ")";
           TransactionCreateInput.amount := Movement.total movement;
           TransactionCreateInput.approved := InventoryIssueInput.approved input;
           TransactionCreateInput.createdBy :=
             orNull (InventoryIssueInput.createdBy input) |} ;;
      ret {| InventoryMovementResult.item := updated;
             InventoryMovementResult.movement := movement;
             InventoryMovementResult.transaction := transaction |}
  end.

(** ** Projects *)

Definition createProject (input : ProjectCreateInput.t) : M Project.t :=
  id <- randomUUID ;;
  let project :=
    {| Project.id := id;
       Project.name := ProjectCreateInput.name input;
       Project.location := ProjectCreateInput.location input;
       Project.floors := ProjectCreateInput.floors input;
       Project.units := ProjectCreateInput.units input;
       Project.createdAt := ProjectCreateInput.createdAt input |} in
  update_store (FallbackStore.on_projects
                  (JsMap.set (Project.id project) project)) ;;;
  ret project.

(** [fallbackStore.projects.get(id) ?? null] *)
Definition getProjectById (id : string) : M (option Project.t) :=
  s <- read_store ;;
  ret (JsMap.get id (FallbackStore.projects s)).

Definition getProjectSnapshot (id : string) : M (option ProjectSnapshot.t) :=
  found <- getProjectById id ;;
  match found with
  | None => ret None
  | Some project =>
      s <- read_store ;;
      let costs :=
        Array_sort (compareDesc ProjectCost.date)
          (List.filter (fun c => String.eqb (ProjectCost.projectId c) id)
             (JsMap.values (FallbackStore.costs s))) in
      let sales :=
        Array_sort (compareDesc ProjectSale.date)
          (List.filter (fun s => String.eqb (ProjectSale.projectId s) id)
             (JsMap.values (FallbackStore.sales s))) in
      ret (Some {| ProjectSnapshot.project := project;
                   ProjectSnapshot.costs := costs;
                   ProjectSnapshot.sales := sales |})
  end.

(** [for (const cost of [...fallbackStore.costs.values()])
       if (cost.projectId === id) fallbackStore.costs.delete(cost.id)]:
    the loop runs over a copy of the values. *)
Definition deleteCostsOf (id : string) (costs : JsMap.t ProjectCost.t)
  : JsMap.t ProjectCost.t :=
  fold_left
    (fun m cost =>
       if String.eqb (ProjectCost.projectId cost) id
       then JsMap.remove (ProjectCost.id cost) m else m)
    (JsMap.values costs) costs.

Definition deleteSalesOf (id : string) (sales : JsMap.t ProjectSale.t)
  : JsMap.t ProjectSale.t :=
  fold_left
    (fun m sale =>
       if String.eqb (ProjectSale.projectId sale) id
       then JsMap.remove (ProjectSale.id sale) m else m)
    (JsMap.values sales) sales.

Definition deleteProject (id : string) : M unit :=
  s <- read_store ;;
  let (deleted, rest) := JsMap.delete id (FallbackStore.projects s) in
  update_store (FallbackStore.on_projects (fun _ => rest)) ;;;
  if negb deleted then throw {| message := "Project not found" |}
  else
    update_store (FallbackStore.on_costs (deleteCostsOf id)) ;;;
    update_store (FallbackStore.on_sales (deleteSalesOf id)) ;;;
    ret tt.

Definition projectCostTypeLabel (type : CostType.t) : string :=
  match type with
  | CostType.construction => "إنشاء"
  | CostType.operation => "تشغيل"
  | CostType.expense => "مصروفات"
  end.

Definition createProjectCost (input : ProjectCostCreateInput.t)
  : M ProjectCostCreateResult.t :=
  id <- randomUUID ;;
  let cost :=
    {| ProjectCost.id := id;
       ProjectCost.projectId := ProjectCostCreateInput.projectId input;
       ProjectCost.type := ProjectCostCreateInput.type input;
       ProjectCost.amount := ProjectCostCreateInput.amount input;
       ProjectCost.date := ProjectCostCreateInput.date input;
       ProjectCost.note := ProjectCostCreateInput.note input |} in
  update_store (FallbackStore.on_costs (JsMap.set (ProjectCost.id cost) cost)) ;;;
  transaction <- createTransactionFallback
    {| TransactionCreateInput.date := ProjectCostCreateInput.date input;
       TransactionCreateInput.type := TransType.expense;
       TransactionCreateInput.description :=
         "تكلفة " ++ projectCostTypeLabel (ProjectCostCreateInput.type input)
           ++ " لمشروع " ++ ProjectCostCreateInput.projectName input;
       TransactionCreateInput.amount := ProjectCostCreateInput.amount input;
       TransactionCreateInput.approved := ProjectCostCreateInput.approved input;
       TransactionCreateInput.createdBy :=
         orNull (ProjectCostCreateInput.createdBy input) |} ;;
  ret {| ProjectCostCreateResult.cost := cost;
         ProjectCostCreateResult.transaction := transaction |}.

Definition createProjectSale (input : ProjectSaleCreateInput.t)
  : M ProjectSaleCreateResult.t :=
  id <- randomUUID ;;
  let sale :=
    {| ProjectSale.id := id;
       ProjectSale.projectId := ProjectSaleCreateInput.projectId input;
       ProjectSale.unitNo := ProjectSaleCreateInput.unitNo input;
       ProjectSale.buyer := ProjectSaleCreateInput.buyer input;
       ProjectSale.price := ProjectSaleCreateInput.price input;
       ProjectSale.date := ProjectSaleCreateInput.date input;
       ProjectSale.terms := orNull (ProjectSaleCreateInput.terms input);
       ProjectSale.area := None;
       ProjectSale.paymentMethod := None |} in
  update_store (FallbackStore.on_sales (JsMap.set (ProjectSale.id sale) sale)) ;;;
  transaction <- createTransactionFallback
    {| TransactionCreateInput.date := ProjectSaleCreateInput.date input;
       TransactionCreateInput.type := TransType.revenue;
       TransactionCreateInput.description :=
         "بيع وحدة " ++ ProjectSaleCreateInput.unitNo input ++ " من مشروع "
           ++ ProjectSaleCreateInput.projectName input ++ " إلى "
           ++ ProjectSaleCreateInput.buyer input;
       TransactionCreateInput.amount := ProjectSaleCreateInput.price input;
       TransactionCreateInput.approved := ProjectSaleCreateInput.approved input;
       TransactionCreateInput.createdBy :=
         orNull (ProjectSaleCreateInput.createdBy input) |} ;;
  ret {| ProjectSaleCreateResult.sale := sale;
         ProjectSaleCreateResult.transaction := transaction |}.

(** ** Calls of the exported functions *)

Inductive call :=
| CreateTransaction (input : TransactionCreateInput.t)
| ApproveTransaction (id : string)
| DeleteTransaction (id : string)
| CreateInventoryItem (input : InventoryItemCreateInput.t)
| DeleteInventoryItem (id : string)
| RecordInventoryReceipt (input : InventoryReceiptInput.t)
| RecordInventoryIssue (input : InventoryIssueInput.t)
| CreateProject (input : ProjectCreateInput.t)
| DeleteProject (id : string)
| CreateProjectCost (input : ProjectCostCreateInput.t)
| CreateProjectSale (input : ProjectSaleCreateInput.t).

(** The world after a call, whether it returned or threw. *)
Definition exec (c : call) (w : World) : World :=
  match c with
  | CreateTransaction input => snd (createTransaction input w)
  | ApproveTransaction id => snd (approveTransaction id w)
  | DeleteTransaction id => snd (deleteTransaction id w)
  | CreateInventoryItem input => snd (createInventoryItem input w)
  | DeleteInventoryItem id => snd (deleteInventoryItem id w)
  | RecordInventoryReceipt input => snd (recordInventoryReceipt input w)
  | RecordInventoryIssue input => snd (recordInventoryIssue input w)
  | CreateProject input => snd (createProject input w)
  | DeleteProject id => snd (deleteProject id w)
  | CreateProjectCost input => snd (createProjectCost input w)
  | CreateProjectSale input => snd (createProjectSale input w)
  end.

Definition exec_all (cs : list call) (w : World) : World :=
  fold_left (fun w c => exec c w) cs w.

(** * Specification vocabulary *)

(** The next two identifiers [crypto.randomUUID()] returns. *)
Definition uuid_1st (w : World) : string := uuid_source w (uuid_count w).
Definition uuid_2nd (w : World) : string := uuid_source w (S (uuid_count w)).

(** What [recordInventoryReceipt] and [recordInventoryIssue] leave in the
    store when they return [r]: the item written under its id, one movement
    and one transaction appended, the other maps untouched. *)
Definition movement_recorded (w w' : World) (item : InventoryItem.t)
    (r : InventoryMovementResult.t) : Prop :=
  let s := fallbackStore w in
  let s' := fallbackStore w' in
  FallbackStore.items s' =
    JsMap.set (InventoryItem.id item) (InventoryMovementResult.item r)
      (FallbackStore.items s) /\
  FallbackStore.movements s' =
    (FallbackStore.movements s ++
       [(Movement.id (InventoryMovementResult.movement r),
         InventoryMovementResult.movement r)])%list /\
  FallbackStore.transactions s' =
    (FallbackStore.transactions s ++
       [(Transaction.id (InventoryMovementResult.transaction r),
         InventoryMovementResult.transaction r)])%list /\
  FallbackStore.projects s' = FallbackStore.projects s /\
  FallbackStore.costs s' = FallbackStore.costs s /\
  FallbackStore.sales s' = FallbackStore.sales s.

(** ** Sample worlds *)

Definition sample_uuids (n : nat) : string := "uuid-" ++ pretty n.
Definition sample_clock (n : nat) : string := "2024-05-01T10:00:0" ++ pretty n ++ ".000Z".

Definition cement : InventoryItemCreateInput.t :=
  {| InventoryItemCreateInput.name := "Cement";
     InventoryItemCreateInput.quantity := 20;
     InventoryItemCreateInput.unit := "bag";
     InventoryItemCreateInput.min := 5;
     InventoryItemCreateInput.updatedAt := "2024-04-30" |}.

(** The world after [createInventoryItem(cement)]: its id is ["uuid-0"]. *)
Definition cement_world : World :=
  exec (CreateInventoryItem cement) (initial_world sample_uuids sample_clock).

Definition cement_receipt : InventoryReceiptInput.t :=
  {| InventoryReceiptInput.itemId := "uuid-0";
     InventoryReceiptInput.qty := 10;
     InventoryReceiptInput.unitPrice := 5;
     InventoryReceiptInput.supplier := "Acme";
     InventoryReceiptInput.date := "2024-05-01";
     InventoryReceiptInput.approved := true;
     InventoryReceiptInput.createdBy := Some "user-1" |}.

Definition cement_issue : InventoryIssueInput.t :=
  {| InventoryIssueInput.itemId := "uuid-0";
     InventoryIssueInput.qty := 25;
     InventoryIssueInput.unitPrice := 5;
     InventoryIssueInput.project := "Tower";
     InventoryIssueInput.date := "2024-05-02";
     InventoryIssueInput.approved := false;
     InventoryIssueInput.createdBy := None |}.


Definition cement_item : InventoryItem.t :=
  {| InventoryItem.id := "uuid-0";
     InventoryItem.name := "Cement";
     InventoryItem.updatedAt := "2024-04-30";
     InventoryItem.quantity := 20;
     InventoryItem.unit := "bag";
     InventoryItem.min := 5 |}.

Definition unknown_receipt : InventoryReceiptInput.t :=
  {| InventoryReceiptInput.itemId := "no-such-item";
     InventoryReceiptInput.qty := 10;
     InventoryReceiptInput.unitPrice := 5;
     InventoryReceiptInput.supplier := "Acme";
     InventoryReceiptInput.date := "2024-05-01";
     InventoryReceiptInput.approved := true;
     InventoryReceiptInput.createdBy := Some "user-1" |}.

Definition unknown_issue : InventoryIssueInput.t :=
  {| InventoryIssueInput.itemId := "no-such-item";
     InventoryIssueInput.qty := 25;
     InventoryIssueInput.unitPrice := 5;
     InventoryIssueInput.project := "Tower";
     InventoryIssueInput.date := "2024-05-02";
     InventoryIssueInput.approved := false;
     InventoryIssueInput.createdBy := None |}.

Definition item_not_found : Error := {| message := "Inventory item not found" |}.

(** ** Stock levels *)

(** Every item of the store has a quantity of at least zero. *)
Definition items_nonneg (s : FallbackStore.t) : Prop :=
  forall item : InventoryItem.t,
    item ∈ JsMap.values (FallbackStore.items s) ->
    0 <= InventoryItem.quantity item.

(** The calls the handlers let through: an item is created with a quantity
    of at least zero, a receipt or an issue has [qty > 0]. *)
Definition valid_call (c : call) : Prop :=
  match c with
  | CreateInventoryItem input => 0 <= InventoryItemCreateInput.quantity input
  | RecordInventoryReceipt input => 0 < InventoryReceiptInput.qty input
  | RecordInventoryIssue input => 0 < InventoryIssueInput.qty input
  | _ => True
  end.

(** ** Reachable worlds *)

(** The worlds of a process: the store starts empty and changes only through
    calls of the exported functions. *)
Inductive reachable : World -> Prop :=
| reachable_initial (uuids clock : nat -> string) :
    reachable (initial_world uuids clock)
| reachable_exec (w : World) (c : call) :
    reachable w -> reachable (exec c w).

(** A map of records is well formed when its keys are distinct and every
    record is stored under its own [id]. *)
Definition map_wf {V : Type} (idof : V -> string) (m : JsMap.t V) : Prop :=
  NoDup (JsMap.keys m) /\ forall k v, (k, v) ∈ m -> idof v = k.


Definition store_wf (s : FallbackStore.t) : Prop :=
  map_wf Transaction.id (FallbackStore.transactions s) /\
  map_wf InventoryItem.id (FallbackStore.items s) /\
  map_wf Movement.id (FallbackStore.movements s) /\
  map_wf Project.id (FallbackStore.projects s) /\
  map_wf ProjectCost.id (FallbackStore.costs s) /\
  map_wf ProjectSale.id (FallbackStore.sales s).

Definition stock_calls : list call :=
  [ CreateInventoryItem cement;
    RecordInventoryReceipt cement_receipt;
    RecordInventoryIssue cement_issue;
    RecordInventoryIssue cement_issue;
    RecordInventoryIssue unknown_issue ].

(** ** Projects and ledger: sample inputs *)

Definition tower_cost : ProjectCostCreateInput.t :=
  {| ProjectCostCreateInput.projectId := "project-1";
     ProjectCostCreateInput.projectName := "Tower";
     ProjectCostCreateInput.type := CostType.construction;
     ProjectCostCreateInput.amount := 1200;
     ProjectCostCreateInput.date := "2024-05-03";
     ProjectCostCreateInput.note := "foundations";
     ProjectCostCreateInput.approved := true;
     ProjectCostCreateInput.createdBy := Some "user-1" |}.

Definition tower_sale : ProjectSaleCreateInput.t :=
  {| ProjectSaleCreateInput.projectId := "project-1";
     ProjectSaleCreateInput.projectName := "Tower";
     ProjectSaleCreateInput.unitNo := "A-12";
     ProjectSaleCreateInput.buyer := "Nour";
     ProjectSaleCreateInput.price := 90000;
     ProjectSaleCreateInput.date := "2024-05-04";
     ProjectSaleCreateInput.terms := None;
     ProjectSaleCreateInput.area := None;
     ProjectSaleCreateInput.paymentMethod := None;
     ProjectSaleCreateInput.approved := false;
     ProjectSaleCreateInput.createdBy := Some "user-2" |}.

Definition transaction_not_found : Error := {| message := "Transaction not found" |}.
Definition project_not_found : Error := {| message := "Project not found" |}.

(** [{ ...existing, approved: true }] *)
Definition approved_copy (existing : Transaction.t) : Transaction.t :=
  {| Transaction.id := Transaction.id existing;
     Transaction.date := Transaction.date existing;
     Transaction.type := Transaction.type existing;
     Transaction.description := Transaction.description existing;
     Transaction.amount := Transaction.amount existing;
     Transaction.approved := true;
     Transaction.createdBy := Transaction.createdBy existing;
     Transaction.createdAt := Transaction.createdAt existing |}.

(** The world after the sample item is created and 25 bags are issued: it
    holds one movement, ["uuid-1"], and one transaction, ["uuid-2"], which
    is not approved. *)
Definition issue_world : World :=
  exec (RecordInventoryIssue cement_issue) cement_world.

Definition issue_transaction : Transaction.t :=
  {| Transaction.id := "uuid-2";
     Transaction.date := "2024-05-02";
     Transaction.type := TransType.expense;
     Transaction.description := "صرف Cement لمشروع Tower (25 bag × 5)";
     Transaction.amount := 125;
     Transaction.approved := false;
     Transaction.createdBy := None;
     Transaction.createdAt := Some "2024-05-01T10:00:00.000Z" |}.

Definition tower : ProjectCreateInput.t :=
  {| ProjectCreateInput.name := "Tower";
     ProjectCreateInput.location := "Cairo";
     ProjectCreateInput.floors := 12;
     ProjectCreateInput.units := 48;
     ProjectCreateInput.createdAt := "2024-05-01" |}.

(** A cost and a sale of the project ["uuid-0"], and a cost of another. *)
Definition project_calls : list call :=
  [ CreateProject tower;
    CreateProjectCost
      {| ProjectCostCreateInput.projectId := "uuid-0";
         ProjectCostCreateInput.projectName := "Tower";
         ProjectCostCreateInput.type := CostType.operation;
         ProjectCostCreateInput.amount := 700;
         ProjectCostCreateInput.date := "2024-05-03";
         ProjectCostCreateInput.note := "";
         ProjectCostCreateInput.approved := true;
         ProjectCostCreateInput.createdBy := None |};
    CreateProjectCost tower_cost;
    CreateProjectSale
      {| ProjectSaleCreateInput.projectId := "uuid-0";
         ProjectSaleCreateInput.projectName := "Tower";
         ProjectSaleCreateInput.unitNo := "B-3";
         ProjectSaleCreateInput.buyer := "Omar";
         ProjectSaleCreateInput.price := 85000;
         ProjectSaleCreateInput.date := "2024-05-05";
         ProjectSaleCreateInput.terms := Some "cash";
         ProjectSaleCreateInput.area := None;
         ProjectSaleCreateInput.paymentMethod := None;
         ProjectSaleCreateInput.approved := true;
         ProjectSaleCreateInput.createdBy := None |} ].

Definition project_world : World :=
  exec_all project_calls (initial_world sample_uuids sample_clock).

(** ** The order of the ledger *)

(** The order of strings, as [<] and [<=] of JavaScript compare them. *)
Definition string_lt (a b : string) : Prop := String.compare a b = Lt.
Definition string_le (a b : string) : Prop := String.compare a b <> Gt.

(** [a] may stand before [b] in the snapshot: [a] has the later date, or
    the same date and a creation timestamp that is not earlier (a missing
    timestamp counts as the empty string). *)
Definition newer_first (a b : Transaction.t) : Prop :=
  string_lt (Transaction.date b) (Transaction.date a) \/
  (Transaction.date a = Transaction.date b /\
   string_le (default "" (Transaction.createdAt b))
             (default "" (Transaction.createdAt a))).

Definition ledger_entry (date : string) : TransactionCreateInput.t :=
  {| TransactionCreateInput.date := date;
     TransactionCreateInput.type := TransType.revenue;
     TransactionCreateInput.description := "rent";
     TransactionCreateInput.amount := 100;
     TransactionCreateInput.approved := true;
     TransactionCreateInput.createdBy := None |}.

(** Three transactions dated, in order of creation, 2024-01-01, 2024-03-01
    and 2024-02-01. *)
Definition ledger_world : World :=
  exec_all
    [ CreateTransaction (ledger_entry "2024-01-01");
      CreateTransaction (ledger_entry "2024-03-01");
      CreateTransaction (ledger_entry "2024-02-01") ]
    (initial_world sample_uuids sample_clock).

(** Two transactions of the same date; ["uuid-1"] is created after
    ["uuid-0"]. *)
Definition same_day_world : World :=
  exec_all
    [ CreateTransaction (ledger_entry "2024-01-01");
      CreateTransaction (ledger_entry "2024-01-01") ]
    (initial_world sample_uuids sample_clock).

(** ** Outcomes of calls *)

Definition thrown {A : Type} (r : outcome A * World) : option Error :=
  match fst r with
  | Thrown e => Some e
  | Returned _ => None
  end.

(** The exception a call ends with, if it throws. *)
Definition call_error (c : call) (w : World) : option Error :=
  match c with
  | CreateTransaction input => thrown (createTransaction input w)
  | ApproveTransaction id => thrown (approveTransaction id w)
  | DeleteTransaction id => thrown (deleteTransaction id w)
  | CreateInventoryItem input => thrown (createInventoryItem input w)
  | DeleteInventoryItem id => thrown (deleteInventoryItem id w)
  | RecordInventoryReceipt input => thrown (recordInventoryReceipt input w)
  | RecordInventoryIssue input => thrown (recordInventoryIssue input w)
  | CreateProject input => thrown (createProject input w)
  | DeleteProject id => thrown (deleteProject id w)
  | CreateProjectCost input => thrown (createProjectCost input w)
  | CreateProjectSale input => thrown (createProjectSale input w)
  end.

(** When a call throws, and what: the three lookups that can miss. *)
Definition missing_key (c : call) (w : World) : option Error :=
  let s := fallbackStore w in
  match c with
  | ApproveTransaction id | DeleteTransaction id =>
      if JsMap.has id (FallbackStore.transactions s) then None
      else Some transaction_not_found
  | RecordInventoryReceipt input =>
      if JsMap.has (InventoryReceiptInput.itemId input) (FallbackStore.items s)
      then None else Some item_not_found
  | RecordInventoryIssue input =>
      if JsMap.has (InventoryIssueInput.itemId input) (FallbackStore.items s)
      then None else Some item_not_found
  | DeleteProject id =>
      if JsMap.has id (FallbackStore.projects s) then None
      else Some project_not_found
  | _ => None
  end.

(** ** Movements *)

(** Every stored movement has [total = qty * unitPrice]. *)
Definition movement_totals_ok (s : FallbackStore.t) : Prop :=
  forall movement : Movement.t,
    movement ∈ JsMap.values (FallbackStore.movements s) ->
    Movement.total movement = Movement.qty movement * Movement.unitPrice movement.

(** Every stored movement refers to an item of the store. *)
Definition movements_have_items (s : FallbackStore.t) : Prop :=
  forall movement : Movement.t,
    movement ∈ JsMap.values (FallbackStore.movements s) ->
    JsMap.get (Movement.itemId movement) (FallbackStore.items s) <> None.

(** Two items, ["uuid-0"] and ["uuid-1"], both with 20 bags. *)
Definition two_items_world : World :=
  exec_all [CreateInventoryItem cement; CreateInventoryItem cement]
    (initial_world sample_uuids sample_clock).

(** ** The order of the other snapshot lists *)

(** [a] may stand before [b] in a list sorted by [key], descending. *)
Definition desc_by {A : Type} (key : A -> string) (a b : A) : Prop :=
  string_le (key b) (key a).
(** * Properties *)

(** ** Maps *)

Section JsMapFacts.
Context {V : Type}.
Implicit Types (k : string) (v : V) (m : JsMap.t V).

Lemma get_set_eq k v m : JsMap.get k (JsMap.set k v m) = Some v.
Proof.
  induction m as [|[k' v'] m IH]; simpl.
  - now rewrite String.eqb_refl.
  - destruct (String.eqb k' k) eqn:E; simpl; rewrite E; auto.
Qed.

Lemma get_set_ne k k' v m :
  k <> k' -> JsMap.get k' (JsMap.set k v m) = JsMap.get k' m.
Proof.
  intros Hne. induction m as [|[k0 v0] m IH]; simpl.
  - apply String.eqb_neq in Hne. now rewrite Hne.
  - destruct (String.eqb k0 k) eqn:E; simpl.
    + apply String.eqb_eq in E. subst k0.
      apply String.eqb_neq in Hne. now rewrite Hne.
    + now rewrite IH.
Qed.

Lemma set_absent k v m :
  JsMap.get k m = None -> JsMap.set k v m = (m ++ [(k, v)])%list.
Proof.
  induction m as [|[k0 v0] m IH]; simpl; auto.
  destruct (String.eqb k0 k); [discriminate|].
  intros H. now rewrite IH.
Qed.


Lemma size_set_absent k v m :
  JsMap.get k m = None -> JsMap.size (JsMap.set k v m) = S (JsMap.size m).
Proof.
  intros H. rewrite (set_absent _ _ _ H). unfold JsMap.size.
  rewrite length_app. simpl. lia.
Qed.


Lemma get_remove_eq k m : JsMap.get k (JsMap.remove k m) = None.
Proof.
  induction m as [|[k0 v0] m IH]; simpl; auto.
  destruct (String.eqb k0 k) eqn:E; simpl; auto. now rewrite E.
Qed.

Lemma get_remove_ne k k' m :
  k <> k' -> JsMap.get k' (JsMap.remove k m) = JsMap.get k' m.
Proof.
  intros Hne. induction m as [|[k0 v0] m IH]; simpl; auto.
  destruct (String.eqb k0 k) eqn:E; simpl.
  - apply String.eqb_eq in E. subst k0.
    apply String.eqb_neq in Hne. now rewrite Hne.
  - now rewrite IH.
Qed.

Lemma remove_absent k m : JsMap.get k m = None -> JsMap.remove k m = m.
Proof.
  induction m as [|[k0 v0] m IH]; simpl; auto.
  destruct (String.eqb k0 k); [discriminate|].
  intros H. now rewrite IH.
Qed.

Lemma remove_filter k m :
  JsMap.remove k m = filter (fun e => e.1 <> k) m.
Proof.
  induction m as [|[k0 v0] m IH]; simpl; auto.
  destruct (String.eqb k0 k) eqn:E.
  - apply String.eqb_eq in E. subst k0.
    rewrite filter_cons_False by (simpl; tauto). exact IH.
  - apply String.eqb_neq in E.
    rewrite filter_cons_True by (simpl; tauto). now rewrite IH.
Qed.

Lemma get_Some_elem_of k v m : JsMap.get k m = Some v -> (k, v) ∈ m.
Proof.
  induction m as [|[k0 v0] m IH]; simpl; [discriminate|].
  destruct (String.eqb k0 k) eqn:E.
  - apply String.eqb_eq in E. intros [= ->]. subst. apply elem_of_cons. now left.
  - intros H. apply elem_of_cons. right. auto.
Qed.

Lemma get_None_keys k m : JsMap.get k m = None <-> k ∉ JsMap.keys m.
Proof.
  unfold JsMap.keys.
  induction m as [|[k0 v0] m IH]; simpl.
  - split; [intros _; apply not_elem_of_nil | reflexivity].
  - rewrite not_elem_of_cons. destruct (String.eqb k0 k) eqn:E.
    + apply String.eqb_eq in E. split; [discriminate|]. intros [H _]. congruence.
    + apply String.eqb_neq in E. rewrite IH. split; [|tauto].
      intros H; split; [congruence|exact H].
Qed.

Lemma elem_of_get k v m :
  NoDup (JsMap.keys m) -> (k, v) ∈ m -> JsMap.get k m = Some v.
Proof.
  unfold JsMap.keys.
  induction m as [|[k0 v0] m IH]; simpl.
  - intros _ H. now apply elem_of_nil in H.
  - rewrite NoDup_cons, elem_of_cons. intros [Hnotin Hnd] [Heq|Hin].
    + injection Heq as -> ->. now rewrite String.eqb_refl.
    + destruct (String.eqb k0 k) eqn:E; [|auto].
      apply String.eqb_eq in E. subst k0. exfalso. apply Hnotin.
      change k with ((k, v).1). now apply list_elem_of_fmap_2.
Qed.

Lemma elem_of_set e k v m :
  e ∈ JsMap.set k v m -> e = (k, v) \/ e ∈ m.
Proof.
  induction m as [|[k0 v0] m IH]; simpl.
  - rewrite list_elem_of_singleton. tauto.
  - destruct (String.eqb k0 k) eqn:E; rewrite !elem_of_cons.
    + apply String.eqb_eq in E. subst k0. tauto.
    + intros [H|H]; [tauto|]. destruct (IH H); tauto.
Qed.

Lemma elem_of_remove e k m : e ∈ JsMap.remove k m <-> e ∈ m /\ e.1 <> k.
Proof. rewrite remove_filter, list_elem_of_filter. tauto. Qed.

Lemma keys_set_present k v m :
  JsMap.get k m <> None -> JsMap.keys (JsMap.set k v m) = JsMap.keys m.
Proof.
  unfold JsMap.keys.
  induction m as [|[k0 v0] m IH]; simpl; [congruence|].
  destruct (String.eqb k0 k) eqn:E; simpl; auto.
  intros H. now rewrite IH.
Qed.

Lemma NoDup_keys_set k v m :
  NoDup (JsMap.keys m) -> NoDup (JsMap.keys (JsMap.set k v m)).
Proof.
  intros Hnd. destruct (JsMap.get k m) eqn:G.
  - rewrite keys_set_present; [auto|congruence].
  - rewrite (set_absent _ _ _ G). unfold JsMap.keys. rewrite fmap_app. simpl.
    apply NoDup_app. split; [exact Hnd|]. split.
    + intros x Hx1 Hx2. apply list_elem_of_singleton in Hx2. subst x.
      now apply get_None_keys in G.
    + apply NoDup_singleton.
Qed.

Lemma NoDup_keys_remove k m :
  NoDup (JsMap.keys m) -> NoDup (JsMap.keys (JsMap.remove k m)).
Proof.
  unfold JsMap.keys.
  induction m as [|[k0 v0] m IH]; simpl; auto.
  rewrite NoDup_cons. intros [Hnotin Hnd].
  destruct (String.eqb k0 k); simpl; auto.
  apply NoDup_cons. split; auto.
  intros Hin. apply Hnotin. apply list_elem_of_fmap in Hin.
  destruct Hin as [e [He Hin]]. apply elem_of_remove in Hin.
  apply list_elem_of_fmap. exists e. tauto.
Qed.

End JsMapFacts.

(** ** Running the store monad *)

Ltac run_store :=
  unfold bind, ret, throw, read_store, update_store, randomUUID,
    nowISOString, with_store, orNull; simpl.

Lemma createTransactionFallback_run (input : TransactionCreateInput.t) (w : World) :
  createTransactionFallback input w =
    let transaction :=
      {| Transaction.id := uuid_source w (uuid_count w);
         Transaction.date := TransactionCreateInput.date input;
         Transaction.type := TransactionCreateInput.type input;
         Transaction.description := TransactionCreateInput.description input;
         Transaction.amount := TransactionCreateInput.amount input;
         Transaction.approved := TransactionCreateInput.approved input;
         Transaction.createdBy := TransactionCreateInput.createdBy input;
         Transaction.createdAt := Some (clock_source w (clock_count w)) |} in
    (Returned transaction,
     {| fallbackStore :=
          FallbackStore.on_transactions
            (JsMap.set (Transaction.id transaction) transaction)
            (fallbackStore w);
        uuid_source := uuid_source w; uuid_count := S (uuid_count w);
        clock_source := clock_source w; clock_count := S (clock_count w) |}).
Proof. reflexivity. Qed.

(** ** Inventory receipts and issues *)

Lemma recordInventoryReceipt_found (w : World) (input : InventoryReceiptInput.t)
    (item : InventoryItem.t) :
  JsMap.get (InventoryReceiptInput.itemId input)
    (FallbackStore.items (fallbackStore w)) = Some item ->
  exists r w',
    recordInventoryReceipt input w = (Returned r, w') /\
    InventoryMovementResult.item r =
      {| InventoryItem.id := InventoryItem.id item;
         InventoryItem.name := InventoryItem.name item;
         InventoryItem.updatedAt := InventoryReceiptInput.date input;
         InventoryItem.quantity :=
           InventoryItem.quantity item + InventoryReceiptInput.qty input;
         InventoryItem.unit := InventoryItem.unit item;
         InventoryItem.min := InventoryItem.min item |} /\
    InventoryMovementResult.movement r =
      {| Movement.id := uuid_1st w;
         Movement.itemId := InventoryReceiptInput.itemId input;
         Movement.kind := MovementKind.kind_in;
         Movement.qty := InventoryReceiptInput.qty input;
         Movement.unitPrice := InventoryReceiptInput.unitPrice input;
         Movement.total :=
           InventoryReceiptInput.qty input * InventoryReceiptInput.unitPrice input;
         Movement.party := InventoryReceiptInput.supplier input;
         Movement.date := InventoryReceiptInput.date input |} /\
    Transaction.id (InventoryMovementResult.transaction r) = uuid_2nd w /\
    Transaction.type (InventoryMovementResult.transaction r) = TransType.expense /\
    Transaction.amount (InventoryMovementResult.transaction r) =
      InventoryReceiptInput.qty input * InventoryReceiptInput.unitPrice input /\
    fallbackStore w' =
      FallbackStore.on_transactions
        (JsMap.set (uuid_2nd w) (InventoryMovementResult.transaction r))
        (FallbackStore.on_movements
           (JsMap.set (uuid_1st w) (InventoryMovementResult.movement r))
           (FallbackStore.on_items
              (JsMap.set (InventoryItem.id item) (InventoryMovementResult.item r))
              (fallbackStore w))).
Proof.
  intros Hget. unfold recordInventoryReceipt.
  unfold bind at 1. unfold read_store at 1. rewrite Hget.
  run_store. eexists _, _. split; [reflexivity|]. simpl.
  repeat split; reflexivity.
Qed.

Lemma recordInventoryIssue_found (w : World) (input : InventoryIssueInput.t)
    (item : InventoryItem.t) :
  JsMap.get (InventoryIssueInput.itemId input)
    (FallbackStore.items (fallbackStore w)) = Some item ->
  exists r w',
    recordInventoryIssue input w = (Returned r, w') /\
    InventoryMovementResult.item r =
      {| InventoryItem.id := InventoryItem.id item;
         InventoryItem.name := InventoryItem.name item;
         InventoryItem.updatedAt := InventoryIssueInput.date input;
         InventoryItem.quantity :=
           Z.max 0 (InventoryItem.quantity item - InventoryIssueInput.qty input);
         InventoryItem.unit := InventoryItem.unit item;
         InventoryItem.min := InventoryItem.min item |} /\
    InventoryMovementResult.movement r =
      {| Movement.id := uuid_1st w;
         Movement.itemId := InventoryIssueInput.itemId input;
         Movement.kind := MovementKind.kind_out;
         Movement.qty := InventoryIssueInput.qty input;
         Movement.unitPrice := InventoryIssueInput.unitPrice input;
         Movement.total :=
           InventoryIssueInput.qty input * InventoryIssueInput.unitPrice input;
         Movement.party := InventoryIssueInput.project input;
         Movement.date := InventoryIssueInput.date input |} /\
    Transaction.id (InventoryMovementResult.transaction r) = uuid_2nd w /\
    Transaction.type (InventoryMovementResult.transaction r) = TransType.expense /\
    Transaction.amount (InventoryMovementResult.transaction r) =
      InventoryIssueInput.qty input * InventoryIssueInput.unitPrice input /\
    fallbackStore w' =
      FallbackStore.on_transactions
        (JsMap.set (uuid_2nd w) (InventoryMovementResult.transaction r))
        (FallbackStore.on_movements
           (JsMap.set (uuid_1st w) (InventoryMovementResult.movement r))
           (FallbackStore.on_items
              (JsMap.set (InventoryItem.id item) (InventoryMovementResult.item r))
              (fallbackStore w))).
Proof.
  intros Hget. unfold recordInventoryIssue.
  unfold bind at 1. unfold read_store at 1. rewrite Hget.
  run_store. eexists _, _. split; [reflexivity|]. simpl.
  repeat split; reflexivity.
Qed.

Lemma recordInventoryReceipt_missing (w : World) (input : InventoryReceiptInput.t) :
  JsMap.get (InventoryReceiptInput.itemId input)
    (FallbackStore.items (fallbackStore w)) = None ->
  recordInventoryReceipt input w =
    (Thrown {| message := "Inventory item not found" |}, w).
Proof.
  intros Hget. unfold recordInventoryReceipt.
  unfold bind at 1. unfold read_store at 1. now rewrite Hget.
Qed.

Lemma recordInventoryIssue_missing (w : World) (input : InventoryIssueInput.t) :
  JsMap.get (InventoryIssueInput.itemId input)
    (FallbackStore.items (fallbackStore w)) = None ->
  recordInventoryIssue input w =
    (Thrown {| message := "Inventory item not found" |}, w).
Proof.
  intros Hget. unfold recordInventoryIssue.
  unfold bind at 1. unfold read_store at 1. now rewrite Hget.
Qed.

Lemma movement_recorded_intro (w w' : World) (item : InventoryItem.t)
    (r : InventoryMovementResult.t) :
  JsMap.get (uuid_1st w) (FallbackStore.movements (fallbackStore w)) = None ->
  JsMap.get (uuid_2nd w) (FallbackStore.transactions (fallbackStore w)) = None ->
  Movement.id (InventoryMovementResult.movement r) = uuid_1st w ->
  Transaction.id (InventoryMovementResult.transaction r) = uuid_2nd w ->
  fallbackStore w' =
    FallbackStore.on_transactions
      (JsMap.set (uuid_2nd w) (InventoryMovementResult.transaction r))
      (FallbackStore.on_movements
         (JsMap.set (uuid_1st w) (InventoryMovementResult.movement r))
         (FallbackStore.on_items
            (JsMap.set (InventoryItem.id item) (InventoryMovementResult.item r))
            (fallbackStore w))) ->
  movement_recorded w w' item r.
Proof.
  intros Hm Ht Hmid Htid Hs. unfold movement_recorded. rewrite Hs. simpl.
  rewrite Hmid, Htid, (set_absent _ _ _ Hm), (set_absent _ _ _ Ht).
  repeat split; reflexivity.
Qed.





(** C10. When an issue is clamped (the requested [qty] exceeds the item's
    quantity), the movement still records the requested [qty] with
    [total = qty * unitPrice] and the transaction's amount is that total:
    more than the quantity taken out of stock. That movement and that
    transaction are what the call writes to the store, next to the item
    with quantity 0; they are new entries when the identifiers drawn for
    them are not in use. *)
Theorem recordInventoryIssue_clamped_movement (w : World)
    (input : InventoryIssueInput.t) (previous : InventoryItem.t) :
  JsMap.get (InventoryIssueInput.itemId input)
    (FallbackStore.items (fallbackStore w)) = Some previous ->
  InventoryItem.quantity previous < InventoryIssueInput.qty input ->
  exists r w',
    recordInventoryIssue input w = (Returned r, w') /\
    InventoryItem.quantity (InventoryMovementResult.item r) = 0 /\
    Movement.qty (InventoryMovementResult.movement r) =
      InventoryIssueInput.qty input /\
    Movement.total (InventoryMovementResult.movement r) =
      InventoryIssueInput.qty input * InventoryIssueInput.unitPrice input /\
    Transaction.amount (InventoryMovementResult.transaction r) =
      InventoryIssueInput.qty input * InventoryIssueInput.unitPrice input /\
    InventoryItem.quantity previous
      - InventoryItem.quantity (InventoryMovementResult.item r)
      < Movement.qty (InventoryMovementResult.movement r) /\
    Movement.kind (InventoryMovementResult.movement r) = MovementKind.kind_out /\
    Movement.itemId (InventoryMovementResult.movement r) =
      InventoryIssueInput.itemId input /\
    Transaction.type (InventoryMovementResult.transaction r) = TransType.expense /\
    fallbackStore w' =
      FallbackStore.on_transactions
        (JsMap.set (Transaction.id (InventoryMovementResult.transaction r))
           (InventoryMovementResult.transaction r))
        (FallbackStore.on_movements
           (JsMap.set (Movement.id (InventoryMovementResult.movement r))
              (InventoryMovementResult.movement r))
           (FallbackStore.on_items
              (JsMap.set (InventoryItem.id previous)
                 (InventoryMovementResult.item r))
              (fallbackStore w))) /\
    JsMap.get (Movement.id (InventoryMovementResult.movement r))
      (FallbackStore.movements (fallbackStore w'))
      = Some (InventoryMovementResult.movement r) /\
    JsMap.get (Transaction.id (InventoryMovementResult.transaction r))
      (FallbackStore.transactions (fallbackStore w'))
      = Some (InventoryMovementResult.transaction r) /\
    JsMap.get (InventoryItem.id previous) (FallbackStore.items (fallbackStore w'))
      = Some (InventoryMovementResult.item r) /\
    (JsMap.get (uuid_1st w) (FallbackStore.movements (fallbackStore w)) = None ->
     JsMap.get (uuid_2nd w) (FallbackStore.transactions (fallbackStore w)) = None ->
     movement_recorded w w' previous r).
Proof.
  intros Hget Hlt.
  destruct (recordInventoryIssue_found w input previous Hget)
    as (r & w' & Hrun & Hitem & Hmov & Htid & Htype & Hamount & Hstore).
  assert (Hmid : Movement.id (InventoryMovementResult.movement r) = uuid_1st w)
    by now rewrite Hmov.
  exists r, w'. split; [exact Hrun|].
  split; [rewrite Hitem; simpl; lia|].
  split; [now rewrite Hmov|]. split; [now rewrite Hmov|].
  split; [exact Hamount|].
  split; [rewrite Hitem, Hmov; simpl; lia|].
  split; [now rewrite Hmov|]. split; [now rewrite Hmov|].
  split; [exact Htype|].
  rewrite Hmid, Htid.
  split; [exact Hstore|].
  rewrite Hstore. simpl.
  split; [apply get_set_eq|]. split; [apply get_set_eq|].
  split; [apply get_set_eq|].
  intros Hm Ht. now apply movement_recorded_intro.
Qed.

Lemma recordInventoryIssue_clamped_movement_witness :
  JsMap.get "uuid-0" (FallbackStore.items (fallbackStore cement_world))
    = Some cement_item /\
  exists r w',
    recordInventoryIssue cement_issue cement_world = (Returned r, w') /\
    InventoryItem.quantity (InventoryMovementResult.item r) = 0 /\
    Movement.qty (InventoryMovementResult.movement r) = 25 /\
    Movement.total (InventoryMovementResult.movement r) = 125 /\
    Transaction.amount (InventoryMovementResult.transaction r) = 125 /\
    FallbackStore.movements (fallbackStore w')
      = [(Movement.id (InventoryMovementResult.movement r),
          InventoryMovementResult.movement r)] /\
    FallbackStore.transactions (fallbackStore w')
      = [(Transaction.id (InventoryMovementResult.transaction r),
          InventoryMovementResult.transaction r)] /\
    JsMap.get "uuid-0" (FallbackStore.items (fallbackStore w'))
      = Some (InventoryMovementResult.item r).
Proof.
  split; [reflexivity|].
  destruct (recordInventoryIssue_clamped_movement cement_world cement_issue cement_item)
    as (r & w' & Hrun & Hq & Hmq & Htot & Ham & _ & _ & _ & _ & _ & _ & _
        & Hitem & Hrec);
    [reflexivity | simpl; lia |].
  destruct Hrec as (_ & Hmovs & Htxs & _); [reflexivity | reflexivity |].
  exists r, w'. rewrite Hq, Hmq, Htot, Ham, Hmovs, Htxs. simpl.
  repeat split; [exact Hrun|exact Hitem].
Defined.

(** C4. On this path a receipt or an issue fails exactly when the item id
    is not in the store; it then throws "Inventory item not found" and
    leaves the world, the store included, as it was before the call: no
    item change, no movement, no transaction. *)
Theorem movement_failure_atomic (w : World)
    (receipt : InventoryReceiptInput.t) (issue : InventoryIssueInput.t) :
  (JsMap.get (InventoryReceiptInput.itemId receipt)
     (FallbackStore.items (fallbackStore w)) = None ->
   recordInventoryReceipt receipt w = (Thrown item_not_found, w)) /\
  (JsMap.get (InventoryIssueInput.itemId issue)
     (FallbackStore.items (fallbackStore w)) = None ->
   recordInventoryIssue issue w = (Thrown item_not_found, w)) /\
  (forall e w', recordInventoryReceipt receipt w = (Thrown e, w') ->
     e = item_not_found /\ w' = w) /\
  (forall e w', recordInventoryIssue issue w = (Thrown e, w') ->
     e = item_not_found /\ w' = w).
Proof.
  split; [apply recordInventoryReceipt_missing|].
  split; [apply recordInventoryIssue_missing|].
  split; intros e w' Hrun.
  - destruct (JsMap.get (InventoryReceiptInput.itemId receipt)
               (FallbackStore.items (fallbackStore w))) as [item|] eqn:Hget.
    + destruct (recordInventoryReceipt_found w receipt item Hget)
        as (r & w'' & Hrun' & _). congruence.
    + rewrite (recordInventoryReceipt_missing w receipt Hget) in Hrun.
      injection Hrun as <- <-. auto.
  - destruct (JsMap.get (InventoryIssueInput.itemId issue)
               (FallbackStore.items (fallbackStore w))) as [item|] eqn:Hget.
    + destruct (recordInventoryIssue_found w issue item Hget)
        as (r & w'' & Hrun' & _). congruence.
    + rewrite (recordInventoryIssue_missing w issue Hget) in Hrun.
      injection Hrun as <- <-. auto.
Qed.

Lemma movement_failure_atomic_witness :
  recordInventoryReceipt unknown_receipt cement_world
    = (Thrown item_not_found, cement_world) /\
  recordInventoryIssue unknown_issue cement_world
    = (Thrown item_not_found, cement_world).
Proof.
  destruct (movement_failure_atomic cement_world unknown_receipt unknown_issue)
    as (Hr & Hi & _).
  split; [apply Hr | apply Hi]; reflexivity.
Defined.

(** ** Stock never goes below zero *)

Lemma elem_of_values {V : Type} (v : V) (m : JsMap.t V) :
  v ∈ JsMap.values m <-> exists k, (k, v) ∈ m.
Proof.
  unfold JsMap.values. rewrite list_elem_of_fmap. split.
  - intros [[k v'] [-> Hin]]. now exists k.
  - intros [k Hin]. now exists (k, v).
Qed.

Lemma items_nonneg_set (s : FallbackStore.t) (k : string) (item : InventoryItem.t) :
  items_nonneg s ->
  0 <= InventoryItem.quantity item ->
  items_nonneg (FallbackStore.on_items (JsMap.set k item) s).
Proof.
  unfold items_nonneg. simpl. intros Hinv Hq i Hi.
  apply elem_of_values in Hi. destruct Hi as [k' Hi].
  apply elem_of_set in Hi. destruct Hi as [[= _ ->]|Hi]; [exact Hq|].
  apply Hinv, elem_of_values. now exists k'.
Qed.

Lemma items_nonneg_remove (s : FallbackStore.t) (k : string) :
  items_nonneg s -> items_nonneg (FallbackStore.on_items (JsMap.remove k) s).
Proof.
  unfold items_nonneg. simpl. intros Hinv i Hi.
  apply elem_of_values in Hi. destruct Hi as [k' Hi].
  apply elem_of_remove in Hi. apply Hinv, elem_of_values. exists k'. tauto.
Qed.

Lemma items_nonneg_get (s : FallbackStore.t) (k : string) (item : InventoryItem.t) :
  items_nonneg s ->
  JsMap.get k (FallbackStore.items s) = Some item ->
  0 <= InventoryItem.quantity item.
Proof.
  intros Hinv Hget. apply Hinv, elem_of_values. exists k.
  now apply get_Some_elem_of.
Qed.

Lemma items_nonneg_same_items (s s' : FallbackStore.t) :
  FallbackStore.items s' = FallbackStore.items s ->
  items_nonneg s -> items_nonneg s'.
Proof. unfold items_nonneg. now intros ->. Qed.

Lemma exec_items_nonneg (c : call) (w : World) :
  valid_call c ->
  items_nonneg (fallbackStore w) ->
  items_nonneg (fallbackStore (exec c w)).
Proof.
  intros Hvalid Hinv. destruct c as
    [input|id|id|input|id|input|input|input|id|input|input]; simpl in *.
  - exact Hinv.
  - unfold approveTransaction. run_store.
    destruct (JsMap.get id _); simpl; exact Hinv.
  - unfold deleteTransaction. run_store.
    destruct (JsMap.has id _); simpl; exact Hinv.
  - unfold createInventoryItem. run_store.
    now apply (items_nonneg_set (fallbackStore w)).
  - unfold deleteInventoryItem. run_store.
    apply (items_nonneg_same_items
             (FallbackStore.on_items (JsMap.remove id) (fallbackStore w)));
      [reflexivity|].
    now apply items_nonneg_remove.
  - destruct (JsMap.get (InventoryReceiptInput.itemId input)
               (FallbackStore.items (fallbackStore w))) as [item|] eqn:Hget.
    + destruct (recordInventoryReceipt_found w input item Hget)
        as (r & w' & Hrun & Hitem & _ & _ & _ & _ & Hstore).
      rewrite Hrun. simpl. rewrite Hstore.
      apply (items_nonneg_same_items
               (FallbackStore.on_items
                  (JsMap.set (InventoryItem.id item) (InventoryMovementResult.item r))
                  (fallbackStore w))); [reflexivity|].
      apply items_nonneg_set; [exact Hinv|].
      rewrite Hitem. simpl.
      pose proof (items_nonneg_get _ _ _ Hinv Hget). lia.
    + now rewrite (recordInventoryReceipt_missing w input Hget).
  - destruct (JsMap.get (InventoryIssueInput.itemId input)
               (FallbackStore.items (fallbackStore w))) as [item|] eqn:Hget.
    + destruct (recordInventoryIssue_found w input item Hget)
        as (r & w' & Hrun & Hitem & _ & _ & _ & _ & Hstore).
      rewrite Hrun. simpl. rewrite Hstore.
      apply (items_nonneg_same_items
               (FallbackStore.on_items
                  (JsMap.set (InventoryItem.id item) (InventoryMovementResult.item r))
                  (fallbackStore w))); [reflexivity|].
      apply items_nonneg_set; [exact Hinv|].
      rewrite Hitem. simpl. lia.
    + now rewrite (recordInventoryIssue_missing w input Hget).
  - exact Hinv.
  - unfold deleteProject. run_store.
    destruct (JsMap.has id _); simpl; exact Hinv.
  - exact Hinv.
  - exact Hinv.
Qed.

Lemma exec_all_items_nonneg (cs : list call) (w : World) :
  Forall valid_call cs ->
  items_nonneg (fallbackStore w) ->
  items_nonneg (fallbackStore (exec_all cs w)).
Proof.
  unfold exec_all. revert w.
  induction cs as [|c cs IH]; simpl; intros w Hvalid Hinv; [exact Hinv|].
  apply Forall_cons in Hvalid. destruct Hvalid as [Hc Hcs].
  apply IH; [exact Hcs|]. now apply exec_items_nonneg.
Qed.

(** C3. Stock is never negative: when every item is created with a
    quantity of at least zero and every receipt and issue has [qty > 0],
    then after any sequence of calls on the initially empty store (creating
    and deleting items, receipts, issues, and the calls on transactions and
    projects as well) every item of the store has [quantity >= 0]. *)
Theorem stock_never_negative (uuids clock : nat -> string) (cs : list call) :
  Forall valid_call cs ->
  items_nonneg (fallbackStore (exec_all cs (initial_world uuids clock))).
Proof.
  intros Hvalid. apply exec_all_items_nonneg; [exact Hvalid|].
  intros item Hin. simpl in Hin. now apply elem_of_nil in Hin.
Qed.

Lemma stock_never_negative_witness :
  Forall valid_call stock_calls /\
  items_nonneg
    (fallbackStore (exec_all stock_calls (initial_world sample_uuids sample_clock))).
Proof.
  assert (Hvalid : Forall valid_call stock_calls)
    by (repeat constructor; simpl; lia).
  split; [exact Hvalid|].
  apply (stock_never_negative sample_uuids sample_clock stock_calls Hvalid).
Defined.

(** The stock of the sample item along [stock_calls]: 20, then 30 after the
    receipt of 10, 5 after the issue of 25, and 0 after the second one. *)
Example stock_calls_quantities :
  map InventoryItem.quantity
    (JsMap.values (FallbackStore.items (fallbackStore
       (exec_all stock_calls (initial_world sample_uuids sample_clock))))) = [0]
  /\ map InventoryItem.quantity
    (JsMap.values (FallbackStore.items (fallbackStore
       (exec_all (take 3 stock_calls) (initial_world sample_uuids sample_clock))))) = [5].
Proof. split; reflexivity. Qed.

(** ** Well-formed stores *)

Section MapWf.
Context {V : Type} (idof : V -> string).
Implicit Types (k : string) (v : V) (m : JsMap.t V).

Lemma map_wf_nil : map_wf idof [].
Proof.
  split; [apply NoDup_nil_2|]. intros k v H. now apply elem_of_nil in H.
Qed.

Lemma map_wf_set k v m :
  map_wf idof m -> idof v = k -> map_wf idof (JsMap.set k v m).
Proof.
  intros [Hnd Hid] Hv. split; [now apply NoDup_keys_set|].
  intros k' v' Hin. apply elem_of_set in Hin.
  destruct Hin as [[= -> ->]|Hin]; auto.
Qed.

Lemma map_wf_remove k m : map_wf idof m -> map_wf idof (JsMap.remove k m).
Proof.
  intros [Hnd Hid]. split; [now apply NoDup_keys_remove|].
  intros k' v' Hin. apply elem_of_remove in Hin. apply Hid. tauto.
Qed.

Lemma map_wf_get k v m : map_wf idof m -> JsMap.get k m = Some v -> idof v = k.
Proof. intros [_ Hid] Hget. now apply Hid, get_Some_elem_of. Qed.

Lemma map_wf_fold_remove (P : V -> bool) (l : list V) m :
  map_wf idof m ->
  map_wf idof
    (fold_left (fun m v => if P v then JsMap.remove (idof v) m else m) l m).
Proof.
  revert m. induction l as [|v l IH]; simpl; intros m Hwf; [exact Hwf|].
  apply IH. destruct (P v); [now apply map_wf_remove | exact Hwf].
Qed.

End MapWf.

Lemma map_wf_deleteMovementsOf (id : string) (pending m : JsMap.t Movement.t) :
  map_wf Movement.id m -> map_wf Movement.id (deleteMovementsOf id pending m).
Proof.
  revert m. induction pending as [|[k movement] pending IH]; simpl;
    intros m Hwf; [exact Hwf|].
  destruct (JsMap.has k m); [|now apply IH].
  destruct (String.eqb (Movement.itemId movement) id); apply IH;
    [now apply map_wf_remove | exact Hwf].
Qed.

Ltac split_wf :=
  unfold store_wf; simpl;
  refine (conj _ (conj _ (conj _ (conj _ (conj _ _))))); try assumption.

Lemma exec_store_wf (c : call) (w : World) :
  store_wf (fallbackStore w) -> store_wf (fallbackStore (exec c w)).
Proof.
  intros (Ht & Hi & Hm & Hp & Hc & Hs). destruct c as
    [input|id|id|input|id|input|input|input|id|input|input]; simpl.
  - split_wf. now apply map_wf_set.
  - unfold approveTransaction. run_store.
    destruct (JsMap.get id _) as [existing|] eqn:Hget; split_wf.
    apply map_wf_set; [assumption|]; simpl.
    now apply (map_wf_get Transaction.id id existing
                 (FallbackStore.transactions (fallbackStore w))).
  - unfold deleteTransaction. run_store.
    destruct (JsMap.has id _); split_wf; now apply map_wf_remove.
  - unfold createInventoryItem. run_store.
    split_wf. now apply map_wf_set.
  - unfold deleteInventoryItem. run_store. split_wf.
    + now apply map_wf_remove.
    + now apply map_wf_deleteMovementsOf.
  - destruct (JsMap.get (InventoryReceiptInput.itemId input)
               (FallbackStore.items (fallbackStore w))) as [item|] eqn:Hget.
    + destruct (recordInventoryReceipt_found w input item Hget)
        as (r & w' & Hrun & Hitem & Hmov & Htid & _ & _ & Hstore).
      rewrite Hrun. simpl. rewrite Hstore. split_wf.
      all: apply map_wf_set; try assumption.
      * rewrite Hitem; reflexivity.
      * rewrite Hmov; reflexivity.
    + rewrite (recordInventoryReceipt_missing w input Hget). split_wf.
  - destruct (JsMap.get (InventoryIssueInput.itemId input)
               (FallbackStore.items (fallbackStore w))) as [item|] eqn:Hget.
    + destruct (recordInventoryIssue_found w input item Hget)
        as (r & w' & Hrun & Hitem & Hmov & Htid & _ & _ & Hstore).
      rewrite Hrun. simpl. rewrite Hstore. split_wf.
      all: apply map_wf_set; try assumption.
      * rewrite Hitem; reflexivity.
      * rewrite Hmov; reflexivity.
    + rewrite (recordInventoryIssue_missing w input Hget). split_wf.
  - unfold createProject. run_store.
    split_wf. now apply map_wf_set.
  - unfold deleteProject. run_store.
    destruct (JsMap.has id _); split_wf.
    all: try now apply map_wf_remove.
    all: unfold deleteCostsOf, deleteSalesOf.
    + now apply (map_wf_fold_remove ProjectCost.id
                   (fun cost => String.eqb (ProjectCost.projectId cost) id)).
    + now apply (map_wf_fold_remove ProjectSale.id
                   (fun sale => String.eqb (ProjectSale.projectId sale) id)).
  - split_wf; now apply map_wf_set.
  - split_wf; now apply map_wf_set.
Qed.

Lemma reachable_store_wf (w : World) : reachable w -> store_wf (fallbackStore w).
Proof.
  induction 1 as [uuids clock|w c _ IH].
  - split_wf; apply map_wf_nil.
  - now apply exec_store_wf.
Qed.

(** ** Project costs and sales *)



(** ** Approving and deleting transactions *)

Lemma approveTransaction_found (w : World) (id : string) (existing : Transaction.t) :
  JsMap.get id (FallbackStore.transactions (fallbackStore w)) = Some existing ->
  approveTransaction id w =
    (Returned (approved_copy existing),
     with_store
       (FallbackStore.on_transactions (JsMap.set id (approved_copy existing))
          (fallbackStore w)) w).
Proof.
  intros Hget. unfold approveTransaction.
  unfold bind at 1. unfold read_store at 1. now rewrite Hget.
Qed.

Lemma approveTransaction_missing (w : World) (id : string) :
  JsMap.get id (FallbackStore.transactions (fallbackStore w)) = None ->
  approveTransaction id w = (Thrown transaction_not_found, w).
Proof.
  intros Hget. unfold approveTransaction.
  unfold bind at 1. unfold read_store at 1. now rewrite Hget.
Qed.



Lemma deleteTransaction_checked (w : World) (id : string) :
  (JsMap.get id (FallbackStore.transactions (fallbackStore w)) = None ->
   deleteTransaction id w = (Thrown transaction_not_found, w)) /\
  (JsMap.get id (FallbackStore.transactions (fallbackStore w)) <> None ->
   exists w',
     deleteTransaction id w = (Returned tt, w') /\
     fallbackStore w' =
       FallbackStore.on_transactions (JsMap.remove id) (fallbackStore w) /\
     JsMap.get id (FallbackStore.transactions (fallbackStore w')) = None).
Proof.
  unfold deleteTransaction, JsMap.delete, JsMap.has. run_store. split.
  - intros Hget. rewrite Hget. simpl. rewrite (remove_absent _ _ Hget).
    destruct w as [[] ? ? ? ?]. reflexivity.
  - intros Hget.
    destruct (JsMap.get id (FallbackStore.transactions (fallbackStore w)));
      [|congruence].
    simpl. eexists. split; [reflexivity|]. simpl.
    split; [reflexivity|apply get_remove_eq].
Qed.

Lemma deleteInventoryItem_returns (w : World) (id : string) :
  exists w',
    deleteInventoryItem id w = (Returned tt, w') /\
    JsMap.get id (FallbackStore.items (fallbackStore w')) = None /\
    (forall k, k <> id ->
       JsMap.get k (FallbackStore.items (fallbackStore w')) =
       JsMap.get k (FallbackStore.items (fallbackStore w))).
Proof.
  unfold deleteInventoryItem. run_store.
  eexists. split; [reflexivity|]. simpl.
  split; [apply get_remove_eq|].
  intros k Hk. apply get_remove_ne. congruence.
Qed.

(** C6, at the failing input. Deleting an item id that is not in the store
    returns normally and leaves the world as it was: [deleteInventoryItem]
    never throws, whereas [deleteTransaction] on an unknown id throws
    "Transaction not found". *)
Theorem deleteInventoryItem_unknown_returns :
  JsMap.get "no-such-item" (FallbackStore.items (fallbackStore cement_world)) = None /\
  deleteInventoryItem "no-such-item" cement_world = (Returned tt, cement_world) /\
  deleteTransaction "no-such-item" cement_world
    = (Thrown transaction_not_found, cement_world).
Proof. repeat split; reflexivity. Qed.

(** ** Deleting a project *)

Lemma filter_iff_elem_of {A : Type} (P1 P2 : A -> Prop)
    `{!forall x, Decision (P1 x), !forall x, Decision (P2 x)} (l : list A) :
  (forall x, x ∈ l -> P1 x <-> P2 x) -> filter P1 l = filter P2 l.
Proof.
  induction l as [|a l IH]; intros Hiff; [reflexivity|].
  assert (Ha : P1 a <-> P2 a) by (apply Hiff, elem_of_cons; now left).
  assert (Hl : filter P1 l = filter P2 l).
  { apply IH. intros x Hx. apply Hiff, elem_of_cons. now right. }
  destruct (decide (P1 a)) as [H1|H1].
  - rewrite !filter_cons_True by tauto. now rewrite Hl.
  - rewrite !filter_cons_False by tauto. exact Hl.
Qed.

Section Cascade.
Context {V : Type} (idof : V -> string) (P : V -> bool).
Implicit Types (m : JsMap.t V) (l : list V).



End Cascade.

Lemma deleteProject_missing (w : World) (id : string) :
  JsMap.get id (FallbackStore.projects (fallbackStore w)) = None ->
  deleteProject id w = (Thrown project_not_found, w).
Proof.
  intros Hget. unfold deleteProject, JsMap.delete, JsMap.has. run_store.
  rewrite Hget. simpl. rewrite (remove_absent _ _ Hget).
  destruct w as [[] ? ? ? ?]. reflexivity.
Qed.

Lemma deleteProject_found (w : World) (id : string) (project : Project.t) :
  JsMap.get id (FallbackStore.projects (fallbackStore w)) = Some project ->
  deleteProject id w =
    (Returned tt,
     with_store
       (FallbackStore.on_sales (deleteSalesOf id)
          (FallbackStore.on_costs (deleteCostsOf id)
             (FallbackStore.on_projects (JsMap.remove id) (fallbackStore w)))) w).
Proof.
  intros Hget. unfold deleteProject, JsMap.delete, JsMap.has. run_store.
  rewrite Hget. reflexivity.
Qed.


Lemma reachable_exec_all (cs : list call) (w : World) :
  reachable w -> reachable (exec_all cs w).
Proof.
  unfold exec_all. revert w.
  induction cs as [|c cs IH]; simpl; intros w Hw; [exact Hw|].
  apply IH. now constructor.
Qed.


(** ** The snapshot of the ledger *)

Lemma string_compare_refl (s : string) : String.compare s s = Eq.
Proof.
  induction s as [|c s IH]; simpl; [reflexivity|].
  unfold Ascii.compare. now rewrite N.compare_refl.
Qed.

Lemma string_compare_eq (a b : string) : String.compare a b = Eq <-> a = b.
Proof.
  split; [apply String.compare_eq_iff|]. intros ->. apply string_compare_refl.
Qed.

Lemma string_lt_trans (a b c : string) :
  string_lt a b -> string_lt b c -> string_lt a c.
Proof.
  unfold string_lt. revert b c.
  induction a as [|x a IH]; intros [|y b] [|z c]; simpl; try congruence.
  unfold Ascii.compare.
  destruct (N.compare_spec (Ascii.N_of_ascii x) (Ascii.N_of_ascii y)) as [Hxy|Hxy|Hxy];
    destruct (N.compare_spec (Ascii.N_of_ascii y) (Ascii.N_of_ascii z)) as [Hyz|Hyz|Hyz];
    try congruence; intros H1 H2.
  - rewrite Hxy, Hyz, N.compare_refl. now apply (IH b).
  - rewrite Hxy. now apply N.compare_lt_iff in Hyz as ->.
  - rewrite <- Hyz. now apply N.compare_lt_iff in Hxy as ->.
  - assert (H : (Ascii.N_of_ascii x < Ascii.N_of_ascii z)%N) by lia.
    now apply N.compare_lt_iff in H as ->.
Qed.

Lemma string_lt_gt (a b : string) : string_lt a b <-> String.compare b a = Gt.
Proof.
  unfold string_lt. rewrite (String.compare_antisym b a).
  destruct (String.compare a b); simpl; split; congruence.
Qed.

Lemma string_le_cases (a b : string) : string_le a b <-> string_lt a b \/ a = b.
Proof.
  unfold string_le, string_lt. rewrite <- string_compare_eq.
  destruct (String.compare a b); split; try tauto; try congruence.
  intros [H|H]; congruence.
Qed.

Lemma string_le_trans (a b c : string) :
  string_le a b -> string_le b c -> string_le a c.
Proof.
  rewrite !string_le_cases. intros [Hab| ->] [Hbc| ->]; auto.
  left. exact (string_lt_trans _ _ _ Hab Hbc).
Qed.

Lemma string_lt_irrefl (a : string) : ~ string_lt a a.
Proof. unfold string_lt. now rewrite string_compare_refl. Qed.

Lemma string_order_total (a b : string) : string_lt a b \/ a = b \/ string_lt b a.
Proof.
  rewrite (string_lt_gt b a). unfold string_lt. rewrite <- string_compare_eq.
  destruct (String.compare a b); tauto.
Qed.

Lemma string_gt_spec (a b : string) : string_gt a b = true <-> string_lt b a.
Proof.
  unfold string_gt, String.ltb, string_lt.
  destruct (String.compare b a); split; congruence.
Qed.

Section ArraySort.
Context {A : Type} (cmp : A -> A -> Z) (R : A -> A -> Prop).
Hypothesis cmp_R : forall a b, cmp a b <= 0 -> R a b.
Hypothesis cmp_flip : forall a b, ~ cmp a b <= 0 -> R b a.
Hypothesis R_trans : forall a b c, R a b -> R b c -> R a c.

Lemma sort_insert_Permutation (x : A) (l : list A) :
  sort_insert cmp x l ≡ₚ x :: l.
Proof.
  induction l as [|y l IH]; simpl; [reflexivity|].
  destruct (cmp x y <=? 0); [reflexivity|].
  rewrite IH. apply perm_swap.
Qed.

Lemma Array_sort_Permutation (l : list A) : Array_sort cmp l ≡ₚ l.
Proof.
  unfold Array_sort. induction l as [|x l IH]; simpl; [reflexivity|].
  rewrite sort_insert_Permutation. now rewrite IH.
Qed.

Lemma sort_insert_StronglySorted (x : A) (l : list A) :
  StronglySorted R l -> StronglySorted R (sort_insert cmp x l).
Proof.
  induction l as [|y l IH]; simpl; intros Hs.
  - repeat constructor.
  - apply StronglySorted_inv in Hs. destruct Hs as [Hl Hy].
    destruct (Z.leb_spec (cmp x y) 0) as [Hle|Hgt].
    + constructor; [constructor; assumption|].
      constructor; [now apply cmp_R|].
      eapply Forall_impl; [exact Hy|]. intros z Hz.
      apply (R_trans x y z); [now apply cmp_R | exact Hz].
    + constructor; [now apply IH|].
      rewrite sort_insert_Permutation. constructor; [|exact Hy].
      apply cmp_flip. lia.
Qed.

Lemma Array_sort_StronglySorted (l : list A) :
  StronglySorted R (Array_sort cmp l).
Proof.
  unfold Array_sort. induction l as [|x l IH]; simpl; [constructor|].
  now apply sort_insert_StronglySorted.
Qed.

End ArraySort.

Lemma compareTransactions_le (a b : Transaction.t) :
  compareTransactions a b <= 0 <-> newer_first a b.
Proof.
  unfold compareTransactions, newer_first.
  destruct (String.eqb_spec (Transaction.date a) (Transaction.date b)) as [Hd|Hd].
  - set (ca := default "" (Transaction.createdAt a)).
    set (cb := default "" (Transaction.createdAt b)).
    rewrite Hd. destruct (String.eqb_spec ca cb) as [Hc|Hc].
    + rewrite Hc. split; [|lia]. intros _. right. split; [reflexivity|].
      apply string_le_cases. now right.
    + destruct (string_gt ca cb) eqn:Hgt.
      * apply string_gt_spec in Hgt. split; [|lia]. intros _. right.
        split; [reflexivity|]. apply string_le_cases. now left.
      * split; [lia|]. intros [H|[_ H]].
        -- now apply string_lt_irrefl in H.
        -- apply string_le_cases in H. destruct H as [H|H]; [|congruence].
           apply string_gt_spec in H. congruence.
  - destruct (string_gt (Transaction.date a) (Transaction.date b)) eqn:Hgt.
    + apply string_gt_spec in Hgt. split; [|lia]. intros _. now left.
    + split; [lia|]. intros [H|[H _]]; [|congruence].
      apply string_gt_spec in H. congruence.
Qed.

Lemma newer_first_total (a b : Transaction.t) : newer_first a b \/ newer_first b a.
Proof.
  unfold newer_first.
  destruct (string_order_total (Transaction.date a) (Transaction.date b))
    as [H|[H|H]]; [now right; left| |now left; left].
  destruct (string_order_total (default "" (Transaction.createdAt a))
              (default "" (Transaction.createdAt b))) as [Hc|[Hc|Hc]].
  - right. right. split; [congruence|]. apply string_le_cases. now left.
  - left. right. split; [exact H|]. apply string_le_cases. now right.
  - left. right. split; [exact H|]. apply string_le_cases. now left.
Qed.

Lemma newer_first_trans (a b c : Transaction.t) :
  newer_first a b -> newer_first b c -> newer_first a c.
Proof.
  unfold newer_first. intros [H1|[H1 H1']] [H2|[H2 H2']].
  - left. exact (string_lt_trans _ _ _ H2 H1).
  - left. now rewrite <- H2.
  - left. now rewrite H1.
  - right. split; [congruence|]. exact (string_le_trans _ _ _ H2' H1').
Qed.

Lemma sortTransactions_sorted (items : list Transaction.t) :
  sortTransactions items ≡ₚ items /\
  StronglySorted newer_first (sortTransactions items).
Proof.
  split; [apply Array_sort_Permutation|].
  apply Array_sort_StronglySorted.
  - intros a b. apply compareTransactions_le.
  - intros a b Hab. destruct (newer_first_total a b) as [H|H]; [|exact H].
    now apply compareTransactions_le in H.
  - apply newer_first_trans.
Qed.

(** C9. The transactions of the snapshot are the stored transactions,
    rearranged (a permutation) so that dates descend and, among equal dates,
    creation timestamps descend. The three transactions of [ledger_world],
    created with the dates 2024-01-01, 2024-03-01 and 2024-02-01, come back
    as 2024-03-01, 2024-02-01, 2024-01-01. *)
Theorem snapshot_transactions_sorted (w : World) :
  (exists snapshot,
     getAccountingSnapshot w = (Returned snapshot, w) /\
     AccountingSnapshot.transactions snapshot
       ≡ₚ JsMap.values (FallbackStore.transactions (fallbackStore w)) /\
     StronglySorted newer_first (AccountingSnapshot.transactions snapshot)) /\
  (map Transaction.date
     (JsMap.values (FallbackStore.transactions (fallbackStore ledger_world)))
     = ["2024-01-01"; "2024-03-01"; "2024-02-01"] /\
   exists snapshot,
     getAccountingSnapshot ledger_world = (Returned snapshot, ledger_world) /\
     map Transaction.date (AccountingSnapshot.transactions snapshot)
       = ["2024-03-01"; "2024-02-01"; "2024-01-01"]).
Proof.
  split.
  - eexists. split; [reflexivity|]. simpl. apply sortTransactions_sorted.
  - split; [reflexivity|]. eexists. split; reflexivity.
Qed.

(** Among transactions of one date the one created last comes first. *)
Example snapshot_same_day :
  exists snapshot,
    getAccountingSnapshot same_day_world = (Returned snapshot, same_day_world) /\
    map Transaction.id (AccountingSnapshot.transactions snapshot)
      = ["uuid-1"; "uuid-0"] /\
    map Transaction.createdAt (AccountingSnapshot.transactions snapshot)
      = [Some "2024-05-01T10:00:01.000Z"; Some "2024-05-01T10:00:00.000Z"].
Proof. eexists. repeat split; reflexivity. Qed.

(** * Further properties of the store *)

(** ** Which calls fail, and what a failure leaves behind *)

Lemma has_get {V : Type} (k : string) (m : JsMap.t V) :
  JsMap.has k m = false <-> JsMap.get k m = None.
Proof. unfold JsMap.has. destruct (JsMap.get k m); split; congruence. Qed.

(** X1. A call throws exactly when the transaction, item or project it looks up
    is not in the store; the three creating calls for records and
    [deleteInventoryItem] never throw. A call that throws leaves the whole
    world, store included, as it found it. *)
Theorem call_fails_on_missing_key_only (c : call) (w : World) :
  call_error c w = missing_key c w /\
  (call_error c w <> None -> exec c w = w).
Proof.
  destruct c as [input|id|id|input|id|input|input|input|id|input|input];
    simpl; unfold thrown.
  - split; [reflexivity|simpl; congruence].
  - unfold JsMap.has.
    destruct (JsMap.get id _) as [t|] eqn:Hget.
    + rewrite (approveTransaction_found w id t Hget). simpl.
      split; [reflexivity|congruence].
    + rewrite (approveTransaction_missing w id Hget). simpl.
      split; [reflexivity|reflexivity].
  - destruct (deleteTransaction_checked w id) as [Hmissing Hfound].
    unfold JsMap.has.
    destruct (JsMap.get id _) as [t|] eqn:Hget.
    + destruct Hfound as (w' & Hrun & _); [congruence|].
      rewrite Hrun. simpl. split; [reflexivity|congruence].
    + rewrite (Hmissing eq_refl). simpl. split; reflexivity.
  - split; [reflexivity|simpl; congruence].
  - split; [reflexivity|simpl; congruence].
  - unfold JsMap.has.
    destruct (JsMap.get (InventoryReceiptInput.itemId input) _) as [item|] eqn:Hget.
    + destruct (recordInventoryReceipt_found w input item Hget)
        as (r & w' & Hrun & _).
      rewrite Hrun. simpl. split; [reflexivity|congruence].
    + rewrite (recordInventoryReceipt_missing w input Hget). simpl.
      split; reflexivity.
  - unfold JsMap.has.
    destruct (JsMap.get (InventoryIssueInput.itemId input) _) as [item|] eqn:Hget.
    + destruct (recordInventoryIssue_found w input item Hget)
        as (r & w' & Hrun & _).
      rewrite Hrun. simpl. split; [reflexivity|congruence].
    + rewrite (recordInventoryIssue_missing w input Hget). simpl.
      split; reflexivity.
  - split; [reflexivity|simpl; congruence].
  - unfold JsMap.has.
    destruct (JsMap.get id _) as [p|] eqn:Hget.
    + rewrite (deleteProject_found w id p Hget). simpl.
      split; [reflexivity|congruence].
    + rewrite (deleteProject_missing w id Hget). simpl.
      split; reflexivity.
  - split; [reflexivity|simpl; congruence].
  - split; [reflexivity|simpl; congruence].
Qed.

Lemma call_fails_on_missing_key_only_witness :
  call_error (DeleteProject "project-1") project_world = Some project_not_found /\
  exec (DeleteProject "project-1") project_world = project_world /\
  call_error (ApproveTransaction "uuid-0") project_world
    = Some transaction_not_found /\
  exec (ApproveTransaction "uuid-0") project_world = project_world.
Proof.
  destruct (call_fails_on_missing_key_only (DeleteProject "project-1") project_world)
    as [H1 H2].
  destruct (call_fails_on_missing_key_only (ApproveTransaction "uuid-0") project_world)
    as [H3 H4].
  split; [rewrite H1; reflexivity|].
  split; [apply H2; rewrite H1; discriminate|].
  split; [rewrite H3; reflexivity|].
  apply H4; rewrite H3; discriminate.
Defined.

(** ** Transactions: create, look up, delete *)

Lemma remove_set_absent {V : Type} (k : string) (v : V) (m : JsMap.t V) :
  JsMap.get k m = None -> JsMap.remove k (JsMap.set k v m) = m.
Proof.
  induction m as [|[k0 v0] m IH]; simpl.
  - intros _. now rewrite String.eqb_refl.
  - destruct (String.eqb k0 k) eqn:E; [discriminate|].
    intros H. simpl. rewrite E. now rewrite IH.
Qed.

Lemma size_remove_present {V : Type} (k : string) (m : JsMap.t V) :
  NoDup (JsMap.keys m) -> JsMap.get k m <> None ->
  S (JsMap.size (JsMap.remove k m)) = JsMap.size m.
Proof.
  unfold JsMap.size, JsMap.keys.
  induction m as [|[k0 v0] m IH]; simpl; [congruence|].
  rewrite NoDup_cons. intros [Hnotin Hnd].
  destruct (String.eqb k0 k) eqn:E.
  - apply String.eqb_eq in E. subst k0. intros _.
    rewrite remove_absent; [reflexivity|]. now apply get_None_keys.
  - intros H. simpl. now rewrite IH.
Qed.

Lemma Array_sort_elem_of {A : Type} (cmp : A -> A -> Z) (x : A) (l : list A) :
  x ∈ Array_sort cmp l <-> x ∈ l.
Proof. now rewrite (Array_sort_Permutation cmp). Qed.

(** X2. A created transaction carries the fields of the input, the identifier
    and the timestamp read from the environment; it can be looked up under
    its id, the next snapshot lists it, and the transactions under other
    ids and the other five maps are untouched. *)
Theorem createTransaction_lookup (w : World) (input : TransactionCreateInput.t) :
  exists t w',
    createTransaction input w = (Returned t, w') /\
    t = {| Transaction.id := uuid_1st w;
           Transaction.date := TransactionCreateInput.date input;
           Transaction.type := TransactionCreateInput.type input;
           Transaction.description := TransactionCreateInput.description input;
           Transaction.amount := TransactionCreateInput.amount input;
           Transaction.approved := TransactionCreateInput.approved input;
           Transaction.createdBy := TransactionCreateInput.createdBy input;
           Transaction.createdAt := Some (clock_source w (clock_count w)) |} /\
    JsMap.get (Transaction.id t) (FallbackStore.transactions (fallbackStore w'))
      = Some t /\
    (forall k, k <> Transaction.id t ->
       JsMap.get k (FallbackStore.transactions (fallbackStore w')) =
       JsMap.get k (FallbackStore.transactions (fallbackStore w))) /\
    (exists snapshot,
       getAccountingSnapshot w' = (Returned snapshot, w') /\
       t ∈ AccountingSnapshot.transactions snapshot) /\
    FallbackStore.items (fallbackStore w') = FallbackStore.items (fallbackStore w) /\
    FallbackStore.movements (fallbackStore w') = FallbackStore.movements (fallbackStore w) /\
    FallbackStore.projects (fallbackStore w') = FallbackStore.projects (fallbackStore w) /\
    FallbackStore.costs (fallbackStore w') = FallbackStore.costs (fallbackStore w) /\
    FallbackStore.sales (fallbackStore w') = FallbackStore.sales (fallbackStore w).
Proof.
  unfold createTransaction. rewrite createTransactionFallback_run.
  eexists _, _. split; [reflexivity|]. split; [reflexivity|]. simpl.
  split; [apply get_set_eq|].
  split; [intros k Hk; apply get_set_ne; congruence|].
  split; [|repeat split; reflexivity].
  eexists. split; [reflexivity|]. simpl.
  apply Array_sort_elem_of.
  apply elem_of_values. eexists. apply get_Some_elem_of, get_set_eq.
Qed.

(** X3. Deleting a transaction right after creating it gives back the store as
    it was before the creation, when the identifier drawn for it was not
    in use. *)
Theorem createTransaction_deleteTransaction (w : World)
    (input : TransactionCreateInput.t) :
  JsMap.get (uuid_1st w) (FallbackStore.transactions (fallbackStore w)) = None ->
  exists t w1 w2,
    createTransaction input w = (Returned t, w1) /\
    deleteTransaction (Transaction.id t) w1 = (Returned tt, w2) /\
    fallbackStore w2 = fallbackStore w.
Proof.
  intros Hfresh. unfold createTransaction. rewrite createTransactionFallback_run.
  eexists _, _, _. split; [reflexivity|]. simpl.
  unfold deleteTransaction, JsMap.delete, JsMap.has. run_store.
  rewrite get_set_eq. simpl. split; [reflexivity|]. simpl.
  unfold uuid_1st in Hfresh. rewrite (remove_set_absent _ _ _ Hfresh).
  now destruct (fallbackStore w).
Qed.

Lemma createTransaction_deleteTransaction_witness :
  exists t w1 w2,
    createTransaction (ledger_entry "2024-06-01") issue_world = (Returned t, w1) /\
    deleteTransaction (Transaction.id t) w1 = (Returned tt, w2) /\
    fallbackStore w2 = fallbackStore issue_world.
Proof.
  apply (createTransaction_deleteTransaction issue_world (ledger_entry "2024-06-01")).
  reflexivity.
Defined.

(** X4. In a world of the process, deleting a stored transaction removes that
    entry and nothing else: the map shrinks by one, the other transactions
    keep their order and values, and deleting the same id again throws
    "Transaction not found" without changing anything. *)
Theorem deleteTransaction_exact (w : World) (id : string) (t : Transaction.t) :
  reachable w ->
  JsMap.get id (FallbackStore.transactions (fallbackStore w)) = Some t ->
  exists w',
    deleteTransaction id w = (Returned tt, w') /\
    FallbackStore.transactions (fallbackStore w') =
      filter (fun e => e.1 <> id) (FallbackStore.transactions (fallbackStore w)) /\
    S (JsMap.size (FallbackStore.transactions (fallbackStore w'))) =
      JsMap.size (FallbackStore.transactions (fallbackStore w)) /\
    (t ∉ JsMap.values (FallbackStore.transactions (fallbackStore w'))) /\
    (forall k, k <> id ->
       JsMap.get k (FallbackStore.transactions (fallbackStore w')) =
       JsMap.get k (FallbackStore.transactions (fallbackStore w))) /\
    deleteTransaction id w' = (Thrown transaction_not_found, w').
Proof.
  intros Hreach Hget. apply reachable_store_wf in Hreach.
  destruct Hreach as ([Hnd Hid] & _).
  destruct (deleteTransaction_checked w id) as [_ Hfound].
  destruct Hfound as (w' & Hrun & Hstore & Hgone); [congruence|].
  exists w'. split; [exact Hrun|]. rewrite Hstore. simpl.
  split; [apply remove_filter|].
  split; [apply size_remove_present; [exact Hnd|congruence]|].
  split.
  { intros Hin. apply elem_of_values in Hin. destruct Hin as [k Hin].
    apply elem_of_remove in Hin. destruct Hin as [Hin Hk]. simpl in Hk.
    apply Hk. rewrite <- (Hid _ _ Hin).
    apply (Hid id t). now apply get_Some_elem_of. }
  split; [intros k Hk; apply get_remove_ne; congruence|].
  destruct (deleteTransaction_checked w' id) as [Hmissing _].
  apply Hmissing. exact Hgone.
Qed.

Lemma deleteTransaction_exact_witness :
  reachable issue_world /\
  exists w',
    deleteTransaction "uuid-2" issue_world = (Returned tt, w') /\
    FallbackStore.transactions (fallbackStore w') = [] /\
    deleteTransaction "uuid-2" w' = (Thrown transaction_not_found, w').
Proof.
  assert (Hreach : reachable issue_world) by (repeat constructor).
  split; [exact Hreach|].
  destruct (deleteTransaction_exact issue_world "uuid-2" issue_transaction Hreach)
    as (w' & Hrun & Htx & _ & _ & _ & Hagain); [reflexivity|].
  exists w'. rewrite Htx. repeat split; [exact Hrun|exact Hagain].
Defined.

(** X5. A stored transaction changes in two ways only, provided the
    identifiers a call draws are not in use: [approveTransaction] on its id
    replaces it by the same transaction with [approved = true],
    [deleteTransaction] on its id removes it, and every other call, these
    two on other ids included, leaves it as it is: date, type, description,
    amount, approval and creator. *)
Theorem stored_transaction_immutable (c : call) (w : World) (k : string)
    (t : Transaction.t) :
  JsMap.get k (FallbackStore.transactions (fallbackStore w)) = Some t ->
  JsMap.get (uuid_1st w) (FallbackStore.transactions (fallbackStore w)) = None ->
  JsMap.get (uuid_2nd w) (FallbackStore.transactions (fallbackStore w)) = None ->
  JsMap.get k (FallbackStore.transactions (fallbackStore (exec c w))) =
    match c with
    | ApproveTransaction id =>
        if String.eqb id k
        then Some {| Transaction.id := Transaction.id t;
                     Transaction.date := Transaction.date t;
                     Transaction.type := Transaction.type t;
                     Transaction.description := Transaction.description t;
                     Transaction.amount := Transaction.amount t;
                     Transaction.approved := true;
                     Transaction.createdBy := Transaction.createdBy t;
                     Transaction.createdAt := Transaction.createdAt t |}
        else Some t
    | DeleteTransaction id => if String.eqb id k then None else Some t
    | _ => Some t
    end.
Proof.
  intros Hget H1 H2. unfold uuid_1st in H1. unfold uuid_2nd in H2.
  assert (N1 : uuid_source w (uuid_count w) <> k) by congruence.
  assert (N2 : uuid_source w (S (uuid_count w)) <> k) by congruence.
  destruct c as [input|id|id|input|id|input|input|input|id|input|input]; simpl.
  - now rewrite get_set_ne.
  - destruct (String.eqb_spec id k) as [->|Hne].
    + rewrite (approveTransaction_found w k t Hget). simpl. apply get_set_eq.
    + destruct (JsMap.get id (FallbackStore.transactions (fallbackStore w)))
        as [t0|] eqn:Hid.
      * rewrite (approveTransaction_found w id t0 Hid). simpl.
        now rewrite get_set_ne.
      * now rewrite (approveTransaction_missing w id Hid).
  - unfold deleteTransaction, JsMap.delete. run_store.
    destruct (String.eqb_spec id k) as [->|Hne].
    + destruct (JsMap.has k _); simpl; apply get_remove_eq.
    + destruct (JsMap.has id _); simpl; now rewrite get_remove_ne.
  - exact Hget.
  - exact Hget.
  - destruct (JsMap.get (InventoryReceiptInput.itemId input)
               (FallbackStore.items (fallbackStore w))) as [item|] eqn:Hitem.
    + destruct (recordInventoryReceipt_found w input item Hitem)
        as (r & w' & Hrun & _ & _ & _ & _ & _ & Hstore).
      rewrite Hrun. simpl. rewrite Hstore. simpl. now rewrite get_set_ne.
    + now rewrite (recordInventoryReceipt_missing w input Hitem).
  - destruct (JsMap.get (InventoryIssueInput.itemId input)
               (FallbackStore.items (fallbackStore w))) as [item|] eqn:Hitem.
    + destruct (recordInventoryIssue_found w input item Hitem)
        as (r & w' & Hrun & _ & _ & _ & _ & _ & Hstore).
      rewrite Hrun. simpl. rewrite Hstore. simpl. now rewrite get_set_ne.
    + now rewrite (recordInventoryIssue_missing w input Hitem).
  - exact Hget.
  - unfold deleteProject, JsMap.delete. run_store.
    destruct (JsMap.has id _); exact Hget.
  - now rewrite get_set_ne.
  - now rewrite get_set_ne.
Qed.

Lemma stored_transaction_immutable_witness :
  JsMap.get "uuid-2" (FallbackStore.transactions (fallbackStore issue_world))
    = Some issue_transaction /\
  JsMap.get "uuid-2"
    (FallbackStore.transactions
       (fallbackStore (exec (RecordInventoryReceipt cement_receipt) issue_world)))
    = Some issue_transaction /\
  JsMap.get "uuid-2"
    (FallbackStore.transactions
       (fallbackStore (exec (ApproveTransaction "uuid-2") issue_world)))
    = Some (approved_copy issue_transaction) /\
  JsMap.get "uuid-2"
    (FallbackStore.transactions
       (fallbackStore (exec (ApproveTransaction "uuid-7") issue_world)))
    = Some issue_transaction /\
  JsMap.get "uuid-2"
    (FallbackStore.transactions
       (fallbackStore (exec (DeleteTransaction "uuid-2") issue_world)))
    = None.
Proof.
  split; [reflexivity|].
  split; [|split; [|split]].
  - rewrite (stored_transaction_immutable (RecordInventoryReceipt cement_receipt)
               issue_world "uuid-2" issue_transaction); reflexivity.
  - rewrite (stored_transaction_immutable (ApproveTransaction "uuid-2")
               issue_world "uuid-2" issue_transaction); reflexivity.
  - rewrite (stored_transaction_immutable (ApproveTransaction "uuid-7")
               issue_world "uuid-2" issue_transaction); reflexivity.
  - rewrite (stored_transaction_immutable (DeleteTransaction "uuid-2")
               issue_world "uuid-2" issue_transaction); reflexivity.
Defined.

(** ** Inventory: deleting an item *)

Lemma filter_all {A : Type} (P : A -> Prop) `{!forall x, Decision (P x)}
    (l : list A) :
  (forall x, x ∈ l -> P x) -> filter P l = l.
Proof.
  induction l as [|a l IH]; intros Hall; [reflexivity|].
  rewrite filter_cons_True by (apply Hall, elem_of_cons; now left).
  rewrite IH; [reflexivity|]. intros x Hx. apply Hall, elem_of_cons. now right.
Qed.

Lemma deleteMovementsOf_filter (id : string) (pending m : JsMap.t Movement.t) :
  (forall k v, (k, v) ∈ pending -> Movement.id v = k) ->
  deleteMovementsOf id pending m =
    filter (fun e => Forall (fun p => Movement.itemId p.2 = id -> p.1 <> e.1) pending) m.
Proof.
  revert m. induction pending as [|[k movement] pending IH]; simpl; intros m Hid.
  - symmetry. apply filter_all. intros x _. constructor.
  - assert (Hid' : forall k v, (k, v) ∈ pending -> Movement.id v = k).
    { intros k' v' Hin. apply Hid, elem_of_cons. now right. }
    assert (Hk : Movement.id movement = k).
    { apply Hid, elem_of_cons. now left. }
    destruct (JsMap.has k m) eqn:Hhas.
    + destruct (String.eqb_spec (Movement.itemId movement) id) as [Hitem|Hitem].
      * rewrite (IH _ Hid'), Hk, remove_filter, list_filter_filter.
        apply list_filter_iff. intros e. rewrite Forall_cons. simpl. split.
        -- intros [Hl He]. split; [intros _; congruence|exact Hl].
        -- intros [He Hl]. split; [exact Hl|]. intros Heq. now apply He.
      * rewrite (IH _ Hid'). apply list_filter_iff. intros e.
        rewrite Forall_cons. simpl. tauto.
    + rewrite (IH _ Hid'). apply filter_iff_elem_of. intros e He.
      rewrite Forall_cons. simpl. split; [|tauto].
      intros Hl. split; [|exact Hl]. intros _ Heq.
      apply has_get, get_None_keys in Hhas. apply Hhas.
      rewrite Heq. now apply list_elem_of_fmap_2.
Qed.

Lemma deleteMovementsOf_all (id : string) (m : JsMap.t Movement.t) :
  map_wf Movement.id m ->
  deleteMovementsOf id m m = filter (fun e => Movement.itemId e.2 <> id) m.
Proof.
  intros [Hnd Hid]. rewrite (deleteMovementsOf_filter id m m Hid).
  apply filter_iff_elem_of. intros [k v] Hin. simpl.
  rewrite Forall_forall. split.
  - intros H Hitem. now apply (H (k, v) Hin Hitem).
  - intros Hitem [k' v'] Hin' Hitem' Heq. simpl in *. subst k'.
    pose proof (elem_of_get _ _ _ Hnd Hin) as G1.
    pose proof (elem_of_get _ _ _ Hnd Hin') as G2.
    congruence.
Qed.

(** X6. In a world of the process, [deleteInventoryItem] removes the item and
    exactly the movements that refer to it; the movements of other items
    keep their order. The transactions derived from the removed movements
    stay in the ledger, and projects, costs and sales are untouched. *)
Theorem deleteInventoryItem_cascades (w : World) (id : string) :
  reachable w ->
  exists w',
    deleteInventoryItem id w = (Returned tt, w') /\
    JsMap.get id (FallbackStore.items (fallbackStore w')) = None /\
    FallbackStore.items (fallbackStore w') =
      filter (fun e => e.1 <> id) (FallbackStore.items (fallbackStore w)) /\
    FallbackStore.movements (fallbackStore w') =
      filter (fun e => Movement.itemId e.2 <> id)
        (FallbackStore.movements (fallbackStore w)) /\
    (forall movement,
       movement ∈ JsMap.values (FallbackStore.movements (fallbackStore w')) ->
       Movement.itemId movement <> id) /\
    FallbackStore.transactions (fallbackStore w') =
      FallbackStore.transactions (fallbackStore w) /\
    FallbackStore.projects (fallbackStore w') = FallbackStore.projects (fallbackStore w) /\
    FallbackStore.costs (fallbackStore w') = FallbackStore.costs (fallbackStore w) /\
    FallbackStore.sales (fallbackStore w') = FallbackStore.sales (fallbackStore w).
Proof.
  intros Hreach. apply reachable_store_wf in Hreach.
  destruct Hreach as (_ & _ & Hm & _).
  unfold deleteInventoryItem. run_store.
  eexists. split; [reflexivity|]. simpl.
  rewrite (deleteMovementsOf_all id _ Hm).
  split; [apply get_remove_eq|].
  split; [apply remove_filter|].
  split; [reflexivity|].
  split; [|repeat split; reflexivity].
  intros movement Hin. apply elem_of_values in Hin. destruct Hin as [k Hin].
  apply list_elem_of_filter in Hin. tauto.
Qed.

Lemma deleteInventoryItem_cascades_witness :
  reachable issue_world /\
  JsMap.keys (FallbackStore.movements (fallbackStore issue_world)) = ["uuid-1"] /\
  exists w',
    deleteInventoryItem "uuid-0" issue_world = (Returned tt, w') /\
    FallbackStore.items (fallbackStore w') = [] /\
    FallbackStore.movements (fallbackStore w') = [] /\
    JsMap.keys (FallbackStore.transactions (fallbackStore w')) = ["uuid-2"].
Proof.
  assert (Hreach : reachable issue_world) by (repeat constructor).
  split; [exact Hreach|]. split; [reflexivity|].
  destruct (deleteInventoryItem_cascades issue_world "uuid-0" Hreach)
    as (w' & Hrun & _ & Hitems & Hmov & _ & Htx & _).
  exists w'. rewrite Hitems, Hmov, Htx. repeat split. exact Hrun.
Defined.

(** ** Inventory: what the store keeps about movements *)

Lemma elem_of_deleteMovementsOf (id : string) (e : string * Movement.t)
    (pending m : JsMap.t Movement.t) :
  e ∈ deleteMovementsOf id pending m -> e ∈ m.
Proof.
  revert m. induction pending as [|[k movement] pending IH]; simpl; intros m;
    [tauto|].
  destruct (JsMap.has k m); [|apply IH].
  destruct (String.eqb (Movement.itemId movement) id); [|apply IH].
  intros H. apply IH in H. apply elem_of_remove in H. tauto.
Qed.

Lemma get_set_preserved {V : Type} (k k' : string) (v : V) (m : JsMap.t V) :
  JsMap.get k m <> None -> JsMap.get k (JsMap.set k' v m) <> None.
Proof.
  intros H. destruct (String.eqb_spec k' k) as [->|Hne].
  - rewrite get_set_eq. congruence.
  - now rewrite get_set_ne.
Qed.

Lemma exec_movement_totals_ok (c : call) (w : World) :
  movement_totals_ok (fallbackStore w) ->
  movement_totals_ok (fallbackStore (exec c w)).
Proof.
  unfold movement_totals_ok. intros Hinv.
  assert (Hset : forall k new,
            Movement.total new = Movement.qty new * Movement.unitPrice new ->
            forall movement,
              movement ∈ JsMap.values
                (JsMap.set k new (FallbackStore.movements (fallbackStore w))) ->
              Movement.total movement
                = Movement.qty movement * Movement.unitPrice movement).
  { intros k new Hnew movement Hin. apply elem_of_values in Hin.
    destruct Hin as [k' Hin]. apply elem_of_set in Hin.
    destruct Hin as [[= _ ->]|Hin]; [exact Hnew|].
    apply Hinv, elem_of_values. now exists k'. }
  destruct c as [input|id|id|input|id|input|input|input|id|input|input]; simpl.
  - exact Hinv.
  - unfold approveTransaction. run_store.
    destruct (JsMap.get id _); exact Hinv.
  - unfold deleteTransaction. run_store.
    destruct (JsMap.has id _); exact Hinv.
  - exact Hinv.
  - unfold deleteInventoryItem. run_store.
    intros movement Hin. apply elem_of_values in Hin. destruct Hin as [k Hin].
    apply elem_of_deleteMovementsOf in Hin. apply Hinv, elem_of_values.
    now exists k.
  - destruct (JsMap.get (InventoryReceiptInput.itemId input)
               (FallbackStore.items (fallbackStore w))) as [item|] eqn:Hget.
    + destruct (recordInventoryReceipt_found w input item Hget)
        as (r & w' & Hrun & _ & Hmov & _ & _ & _ & Hstore).
      rewrite Hrun. simpl. rewrite Hstore. simpl. apply Hset.
      now rewrite Hmov.
    + now rewrite (recordInventoryReceipt_missing w input Hget).
  - destruct (JsMap.get (InventoryIssueInput.itemId input)
               (FallbackStore.items (fallbackStore w))) as [item|] eqn:Hget.
    + destruct (recordInventoryIssue_found w input item Hget)
        as (r & w' & Hrun & _ & Hmov & _ & _ & _ & Hstore).
      rewrite Hrun. simpl. rewrite Hstore. simpl. apply Hset.
      now rewrite Hmov.
    + now rewrite (recordInventoryIssue_missing w input Hget).
  - exact Hinv.
  - unfold deleteProject. run_store.
    destruct (JsMap.has id _); exact Hinv.
  - exact Hinv.
  - exact Hinv.
Qed.

(** X7. In every world of the process each stored movement has
    [total = qty * unitPrice]: no call stores a movement with another total
    or changes a stored one. *)
Theorem reachable_movement_totals (w : World) :
  reachable w -> movement_totals_ok (fallbackStore w).
Proof.
  induction 1 as [uuids clock|w c _ IH].
  - intros movement Hin. simpl in Hin. now apply elem_of_nil in Hin.
  - now apply exec_movement_totals_ok.
Qed.

Lemma reachable_movement_totals_witness :
  reachable issue_world /\
  map (fun m => (Movement.qty m, Movement.unitPrice m, Movement.total m))
    (JsMap.values (FallbackStore.movements (fallbackStore issue_world)))
    = [(25, 5, 125)] /\
  movement_totals_ok (fallbackStore issue_world).
Proof.
  assert (Hreach : reachable issue_world) by (repeat constructor).
  split; [exact Hreach|]. split; [reflexivity|].
  exact (reachable_movement_totals issue_world Hreach).
Defined.

Lemma exec_movements_have_items (c : call) (w : World) :
  store_wf (fallbackStore w) ->
  movements_have_items (fallbackStore w) ->
  movements_have_items (fallbackStore (exec c w)).
Proof.
  unfold movements_have_items. intros (_ & Hi & Hm & _) Hinv.
  assert (Hrec : forall item_key item' k new,
            JsMap.get (Movement.itemId new)
              (JsMap.set item_key item' (FallbackStore.items (fallbackStore w)))
              <> None ->
            forall movement,
              movement ∈ JsMap.values
                (JsMap.set k new (FallbackStore.movements (fallbackStore w))) ->
              JsMap.get (Movement.itemId movement)
                (JsMap.set item_key item' (FallbackStore.items (fallbackStore w)))
                <> None).
  { intros item_key item' k new Hnew movement Hin. apply elem_of_values in Hin.
    destruct Hin as [k' Hin]. apply elem_of_set in Hin.
    destruct Hin as [[= _ ->]|Hin]; [exact Hnew|].
    apply get_set_preserved, Hinv, elem_of_values. now exists k'. }
  destruct c as [input|id|id|input|id|input|input|input|id|input|input]; simpl.
  - exact Hinv.
  - unfold approveTransaction. run_store.
    destruct (JsMap.get id _); exact Hinv.
  - unfold deleteTransaction. run_store.
    destruct (JsMap.has id _); exact Hinv.
  - intros movement Hin. now apply get_set_preserved, Hinv.
  - unfold deleteInventoryItem. run_store.
    rewrite (deleteMovementsOf_all id _ Hm).
    intros movement Hin. apply elem_of_values in Hin. destruct Hin as [k Hin].
    apply list_elem_of_filter in Hin. destruct Hin as [Hne Hin]. simpl in Hne.
    rewrite get_remove_ne by congruence.
    apply Hinv, elem_of_values. now exists k.
  - destruct (JsMap.get (InventoryReceiptInput.itemId input)
               (FallbackStore.items (fallbackStore w))) as [item|] eqn:Hget.
    + destruct (recordInventoryReceipt_found w input item Hget)
        as (r & w' & Hrun & _ & Hmov & _ & _ & _ & Hstore).
      rewrite Hrun. simpl. rewrite Hstore. simpl. apply Hrec.
      rewrite Hmov. simpl.
      rewrite (map_wf_get InventoryItem.id _ _ _ Hi Hget), get_set_eq. congruence.
    + now rewrite (recordInventoryReceipt_missing w input Hget).
  - destruct (JsMap.get (InventoryIssueInput.itemId input)
               (FallbackStore.items (fallbackStore w))) as [item|] eqn:Hget.
    + destruct (recordInventoryIssue_found w input item Hget)
        as (r & w' & Hrun & _ & Hmov & _ & _ & _ & Hstore).
      rewrite Hrun. simpl. rewrite Hstore. simpl. apply Hrec.
      rewrite Hmov. simpl.
      rewrite (map_wf_get InventoryItem.id _ _ _ Hi Hget), get_set_eq. congruence.
    + now rewrite (recordInventoryIssue_missing w input Hget).
  - exact Hinv.
  - unfold deleteProject. run_store.
    destruct (JsMap.has id _); exact Hinv.
  - exact Hinv.
  - exact Hinv.
Qed.

(** X8. In every world of the process each stored movement refers to an item
    that is in the store: a movement is recorded only for an item that
    exists, and deleting the item deletes its movements. *)
Theorem reachable_movements_have_items (w : World) :
  reachable w -> movements_have_items (fallbackStore w).
Proof.
  induction 1 as [uuids clock|w c Hreach IH].
  - intros movement Hin. simpl in Hin. now apply elem_of_nil in Hin.
  - apply exec_movements_have_items; [now apply reachable_store_wf|exact IH].
Qed.

Lemma reachable_movements_have_items_witness :
  reachable issue_world /\
  map Movement.itemId
    (JsMap.values (FallbackStore.movements (fallbackStore issue_world)))
    = ["uuid-0"] /\
  movements_have_items (fallbackStore issue_world).
Proof.
  assert (Hreach : reachable issue_world) by (repeat constructor).
  split; [exact Hreach|]. split; [reflexivity|].
  exact (reachable_movements_have_items issue_world Hreach).
Defined.

(** ** Inventory: items and their stock *)

(** X9. A created item carries the fields of the input under the identifier
    drawn for it; it can be looked up under that id and the next snapshot
    lists it. A receipt on that id then succeeds and its quantity is the
    created quantity plus [qty]. *)
Theorem createInventoryItem_lookup (w : World) (input : InventoryItemCreateInput.t) :
  exists item w',
    createInventoryItem input w = (Returned item, w') /\
    item = {| InventoryItem.id := uuid_1st w;
              InventoryItem.name := InventoryItemCreateInput.name input;
              InventoryItem.updatedAt := InventoryItemCreateInput.updatedAt input;
              InventoryItem.quantity := InventoryItemCreateInput.quantity input;
              InventoryItem.unit := InventoryItemCreateInput.unit input;
              InventoryItem.min := InventoryItemCreateInput.min input |} /\
    JsMap.get (InventoryItem.id item) (FallbackStore.items (fallbackStore w'))
      = Some item /\
    (forall k, k <> InventoryItem.id item ->
       JsMap.get k (FallbackStore.items (fallbackStore w')) =
       JsMap.get k (FallbackStore.items (fallbackStore w))) /\
    (exists snapshot,
       getAccountingSnapshot w' = (Returned snapshot, w') /\
       item ∈ AccountingSnapshot.items snapshot) /\
    (forall receipt,
       InventoryReceiptInput.itemId receipt = InventoryItem.id item ->
       exists r w'',
         recordInventoryReceipt receipt w' = (Returned r, w'') /\
         InventoryItem.quantity (InventoryMovementResult.item r) =
           InventoryItemCreateInput.quantity input + InventoryReceiptInput.qty receipt).
Proof.
  unfold createInventoryItem. run_store.
  eexists _, _. split; [reflexivity|]. split; [reflexivity|]. simpl.
  split; [apply get_set_eq|].
  split; [intros k Hk; apply get_set_ne; congruence|].
  split.
  - eexists. split; [reflexivity|]. simpl.
    apply Array_sort_elem_of, elem_of_values.
    eexists. apply get_Some_elem_of, get_set_eq.
  - intros receipt Hid.
    match goal with
    | |- context [recordInventoryReceipt receipt ?W] =>
        edestruct (recordInventoryReceipt_found W receipt)
          as (r & w'' & Hrun & Hitem & _)
    end.
    { simpl. rewrite Hid. simpl. apply get_set_eq. }
    exists r, w''. split; [exact Hrun|]. now rewrite Hitem.
Qed.

Lemma createInventoryItem_lookup_witness :
  exists item w',
    createInventoryItem cement (initial_world sample_uuids sample_clock)
      = (Returned item, w') /\
    InventoryItem.id item = "uuid-0" /\
    exists r w'',
      recordInventoryReceipt cement_receipt w' = (Returned r, w'') /\
      InventoryItem.quantity (InventoryMovementResult.item r) = 30.
Proof.
  destruct (createInventoryItem_lookup (initial_world sample_uuids sample_clock) cement)
    as (item & w' & Hrun & Hitem & _ & _ & _ & Hreceipt).
  exists item, w'. split; [exact Hrun|].
  assert (Hid : InventoryItem.id item = "uuid-0") by (rewrite Hitem; reflexivity).
  split; [exact Hid|].
  destruct (Hreceipt cement_receipt) as (r & w'' & Hrun' & Hq);
    [rewrite Hid; reflexivity|].
  exists r, w''. split; [exact Hrun'|]. rewrite Hq. reflexivity.
Defined.

(** X10. In a world of the process, a receipt followed by an issue of the
    same quantity of the same item brings the stock back to where it was,
    for whole-number quantities: the stock was not negative and the stock
    plus the received quantity stays below 2^53, the range in which the
    sum and the difference of the store's numbers are exact. The ledger
    does not net out: both calls book an expense of [qty * unitPrice]. *)
Theorem receipt_then_issue_restores_stock (w : World)
    (receipt : InventoryReceiptInput.t) (issue : InventoryIssueInput.t)
    (previous : InventoryItem.t) :
  reachable w ->
  JsMap.get (InventoryReceiptInput.itemId receipt)
    (FallbackStore.items (fallbackStore w)) = Some previous ->
  0 <= InventoryItem.quantity previous ->
  InventoryIssueInput.itemId issue = InventoryReceiptInput.itemId receipt ->
  InventoryIssueInput.qty issue = InventoryReceiptInput.qty receipt ->
  0 < InventoryReceiptInput.qty receipt ->
  InventoryItem.quantity previous + InventoryReceiptInput.qty receipt < 2 ^ 53 ->
  exists r1 w1 r2 w2,
    recordInventoryReceipt receipt w = (Returned r1, w1) /\
    recordInventoryIssue issue w1 = (Returned r2, w2) /\
    InventoryItem.quantity (InventoryMovementResult.item r2) =
      InventoryItem.quantity previous /\
    JsMap.get (InventoryReceiptInput.itemId receipt)
      (FallbackStore.items (fallbackStore w2))
      = Some (InventoryMovementResult.item r2) /\
    Transaction.type (InventoryMovementResult.transaction r1) = TransType.expense /\
    Transaction.type (InventoryMovementResult.transaction r2) = TransType.expense /\
    Transaction.amount (InventoryMovementResult.transaction r1) =
      InventoryReceiptInput.qty receipt * InventoryReceiptInput.unitPrice receipt /\
    Transaction.amount (InventoryMovementResult.transaction r2) =
      InventoryReceiptInput.qty receipt * InventoryIssueInput.unitPrice issue.
Proof.
  intros Hreach Hget Hnonneg Hsame Hqty _ _.
  apply reachable_store_wf in Hreach. destruct Hreach as (_ & Hi & _).
  pose proof (map_wf_get InventoryItem.id _ _ _ Hi Hget) as Hid.
  destruct (recordInventoryReceipt_found w receipt previous Hget)
    as (r1 & w1 & Hrun1 & Hitem1 & _ & _ & Hty1 & Ham1 & Hstore1).
  assert (Hget1 : JsMap.get (InventoryIssueInput.itemId issue)
                    (FallbackStore.items (fallbackStore w1))
                  = Some (InventoryMovementResult.item r1)).
  { rewrite Hstore1, Hsame, Hid. simpl. apply get_set_eq. }
  destruct (recordInventoryIssue_found w1 issue _ Hget1)
    as (r2 & w2 & Hrun2 & Hitem2 & _ & _ & Hty2 & Ham2 & Hstore2).
  exists r1, w1, r2, w2.
  split; [exact Hrun1|]. split; [exact Hrun2|].
  split; [rewrite Hitem2, Hitem1; simpl; lia|].
  split.
  { rewrite Hstore2. simpl. rewrite Hitem1 at 1. simpl.
    rewrite Hid. apply get_set_eq. }
  split; [exact Hty1|]. split; [exact Hty2|]. split; [exact Ham1|].
  now rewrite Ham2, Hqty.
Qed.

Lemma receipt_then_issue_restores_stock_witness :
  reachable cement_world /\
  exists r1 w1 r2 w2,
    recordInventoryReceipt cement_receipt cement_world = (Returned r1, w1) /\
    recordInventoryIssue
      {| InventoryIssueInput.itemId := "uuid-0";
         InventoryIssueInput.qty := 10;
         InventoryIssueInput.unitPrice := 7;
         InventoryIssueInput.project := "Tower";
         InventoryIssueInput.date := "2024-05-02";
         InventoryIssueInput.approved := false;
         InventoryIssueInput.createdBy := None |} w1 = (Returned r2, w2) /\
    InventoryItem.quantity (InventoryMovementResult.item r2) = 20 /\
    Transaction.amount (InventoryMovementResult.transaction r1) = 50 /\
    Transaction.amount (InventoryMovementResult.transaction r2) = 70.
Proof.
  assert (Hreach : reachable cement_world) by (repeat constructor).
  split; [exact Hreach|].
  edestruct (receipt_then_issue_restores_stock cement_world cement_receipt
               {| InventoryIssueInput.itemId := "uuid-0";
                  InventoryIssueInput.qty := 10;
                  InventoryIssueInput.unitPrice := 7;
                  InventoryIssueInput.project := "Tower";
                  InventoryIssueInput.date := "2024-05-02";
                  InventoryIssueInput.approved := false;
                  InventoryIssueInput.createdBy := None |} cement_item Hreach)
    as (r1 & w1 & r2 & w2 & Hrun1 & Hrun2 & Hq & _ & _ & _ & Ham1 & Ham2);
    [reflexivity | simpl; lia | reflexivity | reflexivity | simpl; lia
    | simpl; lia |].
  exists r1, w1, r2, w2. rewrite Hq, Ham1, Ham2.
  repeat split; [exact Hrun1|exact Hrun2].
Defined.

(** X11. In a world of the process, a receipt or an issue changes the one item
    it names: the other items keep their values, and no item is added or
    dropped. *)
Theorem movement_touches_one_item (w : World) (c : call) (itemId : string) :
  reachable w ->
  (exists input, c = RecordInventoryReceipt input /\
                 InventoryReceiptInput.itemId input = itemId) \/
  (exists input, c = RecordInventoryIssue input /\
                 InventoryIssueInput.itemId input = itemId) ->
  JsMap.keys (FallbackStore.items (fallbackStore (exec c w))) =
    JsMap.keys (FallbackStore.items (fallbackStore w)) /\
  forall k, k <> itemId ->
    JsMap.get k (FallbackStore.items (fallbackStore (exec c w))) =
    JsMap.get k (FallbackStore.items (fallbackStore w)).
Proof.
  intros Hreach Hc. apply reachable_store_wf in Hreach.
  destruct Hreach as (_ & Hi & _).
  destruct Hc as [(input & -> & <-)|(input & -> & <-)]; simpl.
  - destruct (JsMap.get (InventoryReceiptInput.itemId input)
               (FallbackStore.items (fallbackStore w))) as [item|] eqn:Hget.
    + destruct (recordInventoryReceipt_found w input item Hget)
        as (r & w' & Hrun & _ & _ & _ & _ & _ & Hstore).
      pose proof (map_wf_get InventoryItem.id _ _ _ Hi Hget) as Hid.
      rewrite Hrun. simpl. rewrite Hstore, Hid. simpl. split.
      * apply keys_set_present. congruence.
      * intros k Hk. apply get_set_ne. congruence.
    + rewrite (recordInventoryReceipt_missing w input Hget). now split.
  - destruct (JsMap.get (InventoryIssueInput.itemId input)
               (FallbackStore.items (fallbackStore w))) as [item|] eqn:Hget.
    + destruct (recordInventoryIssue_found w input item Hget)
        as (r & w' & Hrun & _ & _ & _ & _ & _ & Hstore).
      pose proof (map_wf_get InventoryItem.id _ _ _ Hi Hget) as Hid.
      rewrite Hrun. simpl. rewrite Hstore, Hid. simpl. split.
      * apply keys_set_present. congruence.
      * intros k Hk. apply get_set_ne. congruence.
    + rewrite (recordInventoryIssue_missing w input Hget). now split.
Qed.

Lemma movement_touches_one_item_witness :
  reachable two_items_world /\
  JsMap.keys (FallbackStore.items
    (fallbackStore (exec (RecordInventoryReceipt cement_receipt) two_items_world)))
    = ["uuid-0"; "uuid-1"] /\
  JsMap.get "uuid-1" (FallbackStore.items
    (fallbackStore (exec (RecordInventoryReceipt cement_receipt) two_items_world)))
    = JsMap.get "uuid-1" (FallbackStore.items (fallbackStore two_items_world)).
Proof.
  assert (Hreach : reachable two_items_world)
    by (apply reachable_exec_all; constructor).
  split; [exact Hreach|].
  destruct (movement_touches_one_item two_items_world
              (RecordInventoryReceipt cement_receipt) "uuid-0" Hreach)
    as [Hkeys Hother].
  { left. exists cement_receipt. split; reflexivity. }
  split; [rewrite Hkeys; reflexivity|].
  apply Hother. discriminate.
Defined.

(** ** The snapshot: the other five lists *)

Lemma compareDesc_le {A : Type} (key : A -> string) (a b : A) :
  compareDesc key a b <= 0 <-> desc_by key a b.
Proof.
  unfold compareDesc, desc_by.
  destruct (String.eqb_spec (key a) (key b)) as [Heq|Hne].
  - rewrite Heq. split; [|lia]. intros _. apply string_le_cases. now right.
  - destruct (string_gt (key a) (key b)) eqn:Hgt.
    + apply string_gt_spec in Hgt. split; [|lia]. intros _.
      apply string_le_cases. now left.
    + split; [lia|]. intros H. apply string_le_cases in H.
      destruct H as [H|H]; [|congruence].
      apply string_gt_spec in H. congruence.
Qed.

Lemma desc_by_total {A : Type} (key : A -> string) (a b : A) :
  desc_by key a b \/ desc_by key b a.
Proof.
  unfold desc_by. rewrite !string_le_cases.
  destruct (string_order_total (key a) (key b)) as [H|[H|H]]; auto.
Qed.

Lemma Array_sort_compareDesc {A : Type} (key : A -> string) (l : list A) :
  Array_sort (compareDesc key) l ≡ₚ l /\
  StronglySorted (desc_by key) (Array_sort (compareDesc key) l).
Proof.
  split; [apply Array_sort_Permutation|].
  apply Array_sort_StronglySorted.
  - intros a b. apply compareDesc_le.
  - intros a b Hab. destruct (desc_by_total key a b) as [H|H]; [|exact H].
    now apply compareDesc_le in H.
  - intros a b c Hab Hbc. unfold desc_by in *.
    exact (string_le_trans _ _ _ Hbc Hab).
Qed.

(** X12. The snapshot lists the stored items by [updatedAt], the movements, costs
    and sales by [date] and the projects by [createdAt], all descending;
    each list is a permutation of the values of its map, and taking the
    snapshot does not change the world. *)
Theorem snapshot_lists_sorted (w : World) :
  exists snapshot,
    getAccountingSnapshot w = (Returned snapshot, w) /\
    (AccountingSnapshot.items snapshot
       ≡ₚ JsMap.values (FallbackStore.items (fallbackStore w)) /\
     StronglySorted (desc_by InventoryItem.updatedAt)
       (AccountingSnapshot.items snapshot)) /\
    (AccountingSnapshot.movements snapshot
       ≡ₚ JsMap.values (FallbackStore.movements (fallbackStore w)) /\
     StronglySorted (desc_by Movement.date)
       (AccountingSnapshot.movements snapshot)) /\
    (AccountingSnapshot.projects snapshot
       ≡ₚ JsMap.values (FallbackStore.projects (fallbackStore w)) /\
     StronglySorted (desc_by Project.createdAt)
       (AccountingSnapshot.projects snapshot)) /\
    (AccountingSnapshot.costs snapshot
       ≡ₚ JsMap.values (FallbackStore.costs (fallbackStore w)) /\
     StronglySorted (desc_by ProjectCost.date)
       (AccountingSnapshot.costs snapshot)) /\
    (AccountingSnapshot.sales snapshot
       ≡ₚ JsMap.values (FallbackStore.sales (fallbackStore w)) /\
     StronglySorted (desc_by ProjectSale.date)
       (AccountingSnapshot.sales snapshot)).
Proof.
  eexists. split; [reflexivity|]. simpl.
  repeat split; apply Array_sort_compareDesc.
Qed.

Lemma values_ids {V : Type} (idof : V -> string) (m : JsMap.t V) :
  map_wf idof m -> idof <$> JsMap.values m = JsMap.keys m.
Proof.
  intros [_ Hid]. unfold JsMap.values, JsMap.keys.
  induction m as [|[k v] m IH]; simpl; [reflexivity|].
  rewrite (Hid k v) by (apply elem_of_cons; now left).
  f_equal. apply IH. intros k' v' Hin. apply Hid, elem_of_cons. now right.
Qed.

Lemma sorted_ids_NoDup {V : Type} (idof : V -> string) (cmp : V -> V -> Z)
    (m : JsMap.t V) :
  map_wf idof m -> NoDup (idof <$> Array_sort cmp (JsMap.values m)).
Proof.
  intros Hwf. rewrite (Array_sort_Permutation cmp), (values_ids idof m Hwf).
  apply Hwf.
Qed.

(** X13. In every world of the process the records of each snapshot list have
    pairwise distinct ids. *)
Theorem snapshot_ids_distinct (w : World) :
  reachable w ->
  exists snapshot,
    getAccountingSnapshot w = (Returned snapshot, w) /\
    NoDup (Transaction.id <$> AccountingSnapshot.transactions snapshot) /\
    NoDup (InventoryItem.id <$> AccountingSnapshot.items snapshot) /\
    NoDup (Movement.id <$> AccountingSnapshot.movements snapshot) /\
    NoDup (Project.id <$> AccountingSnapshot.projects snapshot) /\
    NoDup (ProjectCost.id <$> AccountingSnapshot.costs snapshot) /\
    NoDup (ProjectSale.id <$> AccountingSnapshot.sales snapshot).
Proof.
  intros Hreach. apply reachable_store_wf in Hreach.
  destruct Hreach as (Ht & Hi & Hm & Hp & Hc & Hs).
  eexists. split; [reflexivity|]. simpl.
  unfold sortTransactions, sortTransactionsFallbackMovements,
    sortTransactionsFallback, sortByDateDesc.
  repeat split; now apply sorted_ids_NoDup.
Qed.

Lemma snapshot_ids_distinct_witness :
  reachable project_world /\
  exists snapshot,
    getAccountingSnapshot project_world = (Returned snapshot, project_world) /\
    Transaction.id <$> AccountingSnapshot.transactions snapshot
      = ["uuid-6"; "uuid-4"; "uuid-2"] /\
    NoDup (Transaction.id <$> AccountingSnapshot.transactions snapshot).
Proof.
  assert (Hreach : reachable project_world)
    by (apply reachable_exec_all; constructor).
  split; [exact Hreach|].
  destruct (snapshot_ids_distinct project_world Hreach)
    as (snapshot & Hrun & Hnd & _).
  exists snapshot. split; [exact Hrun|]. split; [|exact Hnd].
  injection Hrun as <-. reflexivity.
Defined.

(** ** Projects *)

Lemma List_filter_stdpp {A : Type} (f : A -> bool) (l : list A) :
  List.filter f l = filter (fun x => f x = true) l.
Proof.
  induction l as [|a l IH]; simpl; [reflexivity|].
  destruct (f a) eqn:E.
  - rewrite filter_cons_True by exact E. now rewrite IH.
  - rewrite filter_cons_False by congruence. exact IH.
Qed.

(** X14. [getProjectSnapshot] returns [null] exactly when no project has the id.
    Otherwise it returns the stored project with the costs and the sales of
    the store whose [projectId] is the id, and no others, each list sorted
    by [date] descending. It does not change the world. *)
Theorem getProjectSnapshot_filters (w : World) (id : string) :
  (JsMap.get id (FallbackStore.projects (fallbackStore w)) = None ->
   getProjectSnapshot id w = (Returned None, w)) /\
  (forall project,
     JsMap.get id (FallbackStore.projects (fallbackStore w)) = Some project ->
     exists snapshot,
       getProjectSnapshot id w = (Returned (Some snapshot), w) /\
       ProjectSnapshot.project snapshot = project /\
       ProjectSnapshot.costs snapshot
         ≡ₚ filter (fun c => ProjectCost.projectId c = id)
              (JsMap.values (FallbackStore.costs (fallbackStore w))) /\
       ProjectSnapshot.sales snapshot
         ≡ₚ filter (fun s => ProjectSale.projectId s = id)
              (JsMap.values (FallbackStore.sales (fallbackStore w))) /\
       StronglySorted (desc_by ProjectCost.date) (ProjectSnapshot.costs snapshot) /\
       StronglySorted (desc_by ProjectSale.date) (ProjectSnapshot.sales snapshot)).
Proof.
  unfold getProjectSnapshot, getProjectById. run_store. split.
  - intros Hget. now rewrite Hget.
  - intros project Hget. rewrite Hget. simpl.
    eexists. split; [reflexivity|]. simpl. split; [reflexivity|].
    split; [|split; [|split; apply Array_sort_compareDesc]].
    + rewrite (Array_sort_Permutation (compareDesc ProjectCost.date)).
      rewrite List_filter_stdpp.
      erewrite list_filter_iff; [reflexivity|].
      intros c. simpl. now rewrite String.eqb_eq.
    + rewrite (Array_sort_Permutation (compareDesc ProjectSale.date)).
      rewrite List_filter_stdpp.
      erewrite list_filter_iff; [reflexivity|].
      intros c. simpl. now rewrite String.eqb_eq.
Qed.

Lemma getProjectSnapshot_filters_witness :
  getProjectSnapshot "project-1" project_world = (Returned None, project_world) /\
  exists snapshot,
    getProjectSnapshot "uuid-0" project_world
      = (Returned (Some snapshot), project_world) /\
    ProjectCost.id <$> ProjectSnapshot.costs snapshot = ["uuid-1"] /\
    ProjectSale.id <$> ProjectSnapshot.sales snapshot = ["uuid-5"].
Proof.
  destruct (getProjectSnapshot_filters project_world "project-1") as [Hmissing _].
  destruct (getProjectSnapshot_filters project_world "uuid-0") as [_ Hfound].
  split; [apply Hmissing; reflexivity|].
  destruct (Hfound
              {| Project.id := "uuid-0"; Project.name := "Tower";
                 Project.location := "Cairo"; Project.floors := 12;
                 Project.units := 48; Project.createdAt := "2024-05-01" |})
    as (snapshot & Hrun & _); [reflexivity|].
  exists snapshot. split; [exact Hrun|].
  injection Hrun as <-. split; reflexivity.
Defined.

(** X15. A created project carries the fields of the input under the identifier
    drawn for it; [getProjectById] on that id then returns it, the projects
    under other ids are untouched, and [deleteProject] on that id
    succeeds. *)
Theorem createProject_lookup (w : World) (input : ProjectCreateInput.t) :
  exists project w',
    createProject input w = (Returned project, w') /\
    project = {| Project.id := uuid_1st w;
                 Project.name := ProjectCreateInput.name input;
                 Project.location := ProjectCreateInput.location input;
                 Project.floors := ProjectCreateInput.floors input;
                 Project.units := ProjectCreateInput.units input;
                 Project.createdAt := ProjectCreateInput.createdAt input |} /\
    getProjectById (Project.id project) w' = (Returned (Some project), w') /\
    (forall k, k <> Project.id project ->
       JsMap.get k (FallbackStore.projects (fallbackStore w')) =
       JsMap.get k (FallbackStore.projects (fallbackStore w))) /\
    call_error (DeleteProject (Project.id project)) w' = None.
Proof.
  unfold createProject, getProjectById. run_store.
  eexists _, _. split; [reflexivity|]. split; [reflexivity|]. simpl.
  rewrite get_set_eq. split; [reflexivity|]. split.
  - intros k Hk. apply get_set_ne. congruence.
  - unfold thrown.
    erewrite deleteProject_found; [reflexivity|]. simpl. apply get_set_eq.
Qed.

(** X16. [createProjectCost] and [createProjectSale] do not look the project up:
    with a [projectId] that no project has they still return and store the
    record and its transaction. The full snapshot then lists the record,
    while [getProjectSnapshot] for that id returns [null]. *)
Theorem project_records_without_project (w : World)
    (cost_input : ProjectCostCreateInput.t) (sale_input : ProjectSaleCreateInput.t) :
  JsMap.get (ProjectCostCreateInput.projectId cost_input)
    (FallbackStore.projects (fallbackStore w)) = None ->
  JsMap.get (ProjectSaleCreateInput.projectId sale_input)
    (FallbackStore.projects (fallbackStore w)) = None ->
  (exists r w' snapshot,
     createProjectCost cost_input w = (Returned r, w') /\
     getAccountingSnapshot w' = (Returned snapshot, w') /\
     ProjectCostCreateResult.cost r ∈ AccountingSnapshot.costs snapshot /\
     ProjectCostCreateResult.transaction r
       ∈ AccountingSnapshot.transactions snapshot /\
     getProjectSnapshot (ProjectCostCreateInput.projectId cost_input) w'
       = (Returned None, w')) /\
  (exists r w' snapshot,
     createProjectSale sale_input w = (Returned r, w') /\
     getAccountingSnapshot w' = (Returned snapshot, w') /\
     ProjectSaleCreateResult.sale r ∈ AccountingSnapshot.sales snapshot /\
     ProjectSaleCreateResult.transaction r
       ∈ AccountingSnapshot.transactions snapshot /\
     getProjectSnapshot (ProjectSaleCreateInput.projectId sale_input) w'
       = (Returned None, w')).
Proof.
  intros Hc Hs. split.
  - unfold createProjectCost, createTransactionFallback. run_store.
    eexists _, _, _. split; [reflexivity|]. split; [reflexivity|]. simpl.
    split; [|split].
    + apply Array_sort_elem_of, elem_of_values.
      eexists. apply get_Some_elem_of, get_set_eq.
    + apply Array_sort_elem_of, elem_of_values.
      eexists. apply get_Some_elem_of, get_set_eq.
    + unfold getProjectSnapshot, getProjectById. run_store. now rewrite Hc.
  - unfold createProjectSale, createTransactionFallback. run_store.
    eexists _, _, _. split; [reflexivity|]. split; [reflexivity|]. simpl.
    split; [|split].
    + apply Array_sort_elem_of, elem_of_values.
      eexists. apply get_Some_elem_of, get_set_eq.
    + apply Array_sort_elem_of, elem_of_values.
      eexists. apply get_Some_elem_of, get_set_eq.
    + unfold getProjectSnapshot, getProjectById. run_store. now rewrite Hs.
Qed.

Lemma project_records_without_project_witness :
  JsMap.get "project-1" (FallbackStore.projects (fallbackStore cement_world)) = None /\
  (exists r w' snapshot,
     createProjectCost tower_cost cement_world = (Returned r, w') /\
     getAccountingSnapshot w' = (Returned snapshot, w') /\
     ProjectCostCreateResult.cost r ∈ AccountingSnapshot.costs snapshot /\
     getProjectSnapshot "project-1" w' = (Returned None, w')).
Proof.
  split; [reflexivity|].
  destruct (project_records_without_project cement_world tower_cost tower_sale)
    as [(r & w' & snapshot & Hrun & Hsnap & Hin & _ & Hnone) _];
    [reflexivity|reflexivity|].
  exists r, w', snapshot. repeat split; assumption.
Defined.

Lemma createProject_lookup_witness :
  exists project w',
    createProject tower (initial_world sample_uuids sample_clock)
      = (Returned project, w') /\
    Project.id project = "uuid-0" /\
    getProjectById "uuid-0" w' = (Returned (Some project), w') /\
    JsMap.get "uuid-1" (FallbackStore.projects (fallbackStore w')) = None.
Proof.
  destruct (createProject_lookup (initial_world sample_uuids sample_clock) tower)
    as (project & w' & Hrun & Hproject & Hget & Hother & _).
  assert (Hid : Project.id project = "uuid-0") by (rewrite Hproject; reflexivity).
  exists project, w'. split; [exact Hrun|]. split; [exact Hid|].
  split; [now rewrite <- Hid|].
  rewrite Hother; [reflexivity|]. rewrite Hid. discriminate.
Defined.

Lemma createTransaction_lookup_witness :
  exists t w',
    createTransaction (ledger_entry "2024-06-01") issue_world = (Returned t, w') /\
    Transaction.id t = "uuid-3" /\
    JsMap.get "uuid-3" (FallbackStore.transactions (fallbackStore w')) = Some t /\
    JsMap.get "uuid-2" (FallbackStore.transactions (fallbackStore w'))
      = Some issue_transaction.
Proof.
  destruct (createTransaction_lookup issue_world (ledger_entry "2024-06-01"))
    as (t & w' & Hrun & Ht & Hget & Hother & _).
  assert (Hid : Transaction.id t = "uuid-3") by (rewrite Ht; reflexivity).
  exists t, w'. split; [exact Hrun|]. split; [exact Hid|].
  split; [now rewrite <- Hid|].
  rewrite Hother; [reflexivity|]. rewrite Hid. discriminate.
Defined.
